(** * Lunar lander: flight dynamics and terrain generation

    A shallow embedding of [src/lunar_lander.py]: the [Lander] class
    (vehicle state, pilot commands and the per-tick [update_telemetry]
    integrator) and the [Terrain] class (lazy, cached, random terrain
    profile), followed by the properties the specification states about
    them.

    Modelling conventions.
    - A Python [int] is a [Z].  A Python [float] is an exact rational [Q]:
      every comparison, addition and multiplication of the source is kept,
      binary64 rounding is not.  Equalities between computed floats are
      therefore stated with [==] (equality of rationals).
    - [math.radians], [math.cos], [math.sin] and [math.sqrt] are not
      rational functions; they are the fields of the class [MathLib], and
      every theorem holds for every instance of it.
    - A Python call either returns or raises: [outcome].  Its third
      constructor only marks a [while True] loop cut off by its unrolling
      bound, and is shown never to occur.
    - [random.randint] reads the next cell of an entropy tape; every
      sequence of draws the real generator can make is the image of some
      tape.
    - The pygame surface held by a [Lander] is rendering state and is not
      part of the embedded record. *)

From Stdlib Require Import ZArith QArith Qround Lia Lqa List Bool String.
Import ListNotations.

Set Implicit Arguments.

(** ** Python values and control *)

Inductive exn : Type := ValueError | KeyError | IndexError.

Inductive outcome (A : Type) : Type :=
| Return (a : A)
| Raise (e : exn)
| OutOfFuel.

Arguments Return {A} a.
Arguments Raise {A} e.
Arguments OutOfFuel {A}.

(** Comparisons of Python numbers, as booleans. *)
Definition Qlt_bool (x y : Q) : bool := negb (Qle_bool y x).
Definition Qgt_bool (x y : Q) : bool := Qlt_bool y x.
Definition Qge_bool (x y : Q) : bool := Qle_bool y x.

Declare Scope py_scope.
Delimit Scope py_scope with py.
Infix "<?" := Qlt_bool (at level 70, no associativity) : py_scope.
Infix "<=?" := Qle_bool (at level 70, no associativity) : py_scope.
Infix ">?" := Qgt_bool (at level 70, no associativity) : py_scope.
Infix ">=?" := Qge_bool (at level 70, no associativity) : py_scope.

Open Scope Q_scope.
Open Scope py_scope.

(** [d[k]] on a dict written as a literal: the first binding of [k]. *)
Fixpoint dict_get {V : Type} (d : list (Z * V)) (k : Z) : option V :=
  match d with
  | [] => None
  | (k', v) :: d' => if Z.eqb k' k then Some v else dict_get d' k
  end.

(** [float("{0:.3f}".format(x))]: the nearest multiple of 1/1000, ties to
    the even one. *)
Definition round_half_even (x : Q) : Z :=
  let n := Qfloor x in
  let r := x - inject_Z n in
  if r <? 1 # 2 then n
  else if r >? 1 # 2 then (n + 1)%Z
  else if Z.even n then n else (n + 1)%Z.

Definition format_3f (x : Q) : Q := inject_Z (round_half_even (x * 1000)) / 1000.

(** The functions of Python's [math] module used by the program. *)
Class MathLib : Type := {
  math_radians : Q -> Q;
  math_cos : Q -> Q;
  math_sin : Q -> Q;
  math_sqrt : Q -> Q
}.

(** ** Module constants *)

Definition XDIM : Z := 1024.
Definition YDIM : Z := 768.
Definition GRAVITY : Q := 0.05.
Definition FUEL : Q := 100.

(** ** class Lander *)

Module Lander.

Record t : Type := mk {
  shipx : Q;
  shipy : Q;
  xspeed : Q;
  yspeed : Q;
  thrust : Q;
  thrust_level : Z;
  degree : Q;
  degree_change : Q;
  fuel : Q;
  thrust_fuel_burn : Q;
  spin_fuel_burn : Q;
  xdim : Z;
  ydim : Z;
  pause : bool;
  speed : option Q   (* the attribute exists only after the first tick *)
}.

(** Attribute assignment [self.f = v]. *)
Definition set_shipx (v : Q) (s : t) : t :=
  mk v (shipy s) (xspeed s) (yspeed s) (thrust s) (thrust_level s) (degree s)
     (degree_change s) (fuel s) (thrust_fuel_burn s) (spin_fuel_burn s)
     (xdim s) (ydim s) (pause s) (speed s).
Definition set_shipy (v : Q) (s : t) : t :=
  mk (shipx s) v (xspeed s) (yspeed s) (thrust s) (thrust_level s) (degree s)
     (degree_change s) (fuel s) (thrust_fuel_burn s) (spin_fuel_burn s)
     (xdim s) (ydim s) (pause s) (speed s).
Definition set_xspeed (v : Q) (s : t) : t :=
  mk (shipx s) (shipy s) v (yspeed s) (thrust s) (thrust_level s) (degree s)
     (degree_change s) (fuel s) (thrust_fuel_burn s) (spin_fuel_burn s)
     (xdim s) (ydim s) (pause s) (speed s).
Definition set_yspeed (v : Q) (s : t) : t :=
  mk (shipx s) (shipy s) (xspeed s) v (thrust s) (thrust_level s) (degree s)
     (degree_change s) (fuel s) (thrust_fuel_burn s) (spin_fuel_burn s)
     (xdim s) (ydim s) (pause s) (speed s).
Definition set_thrust (v : Q) (s : t) : t :=
  mk (shipx s) (shipy s) (xspeed s) (yspeed s) v (thrust_level s) (degree s)
     (degree_change s) (fuel s) (thrust_fuel_burn s) (spin_fuel_burn s)
     (xdim s) (ydim s) (pause s) (speed s).
Definition set_thrust_level (v : Z) (s : t) : t :=
  mk (shipx s) (shipy s) (xspeed s) (yspeed s) (thrust s) v (degree s)
     (degree_change s) (fuel s) (thrust_fuel_burn s) (spin_fuel_burn s)
     (xdim s) (ydim s) (pause s) (speed s).
Definition set_degree (v : Q) (s : t) : t :=
  mk (shipx s) (shipy s) (xspeed s) (yspeed s) (thrust s) (thrust_level s) v
     (degree_change s) (fuel s) (thrust_fuel_burn s) (spin_fuel_burn s)
     (xdim s) (ydim s) (pause s) (speed s).
Definition set_degree_change (v : Q) (s : t) : t :=
  mk (shipx s) (shipy s) (xspeed s) (yspeed s) (thrust s) (thrust_level s) (degree s)
     v (fuel s) (thrust_fuel_burn s) (spin_fuel_burn s)
     (xdim s) (ydim s) (pause s) (speed s).
Definition set_fuel (v : Q) (s : t) : t :=
  mk (shipx s) (shipy s) (xspeed s) (yspeed s) (thrust s) (thrust_level s) (degree s)
     (degree_change s) v (thrust_fuel_burn s) (spin_fuel_burn s)
     (xdim s) (ydim s) (pause s) (speed s).
Definition set_thrust_fuel_burn (v : Q) (s : t) : t :=
  mk (shipx s) (shipy s) (xspeed s) (yspeed s) (thrust s) (thrust_level s) (degree s)
     (degree_change s) (fuel s) v (spin_fuel_burn s)
     (xdim s) (ydim s) (pause s) (speed s).
Definition set_spin_fuel_burn (v : Q) (s : t) : t :=
  mk (shipx s) (shipy s) (xspeed s) (yspeed s) (thrust s) (thrust_level s) (degree s)
     (degree_change s) (fuel s) (thrust_fuel_burn s) v
     (xdim s) (ydim s) (pause s) (speed s).
Definition set_speed (v : Q) (s : t) : t :=
  mk (shipx s) (shipy s) (xspeed s) (yspeed s) (thrust s) (thrust_level s) (degree s)
     (degree_change s) (fuel s) (thrust_fuel_burn s) (spin_fuel_burn s)
     (xdim s) (ydim s) (pause s) (Some v).

Definition THRUST_MAP : list (Z * Q) :=
  [ (0%Z, 0);
    (1%Z, GRAVITY * 0.9);
    (2%Z, GRAVITY * 2.0);
    (3%Z, GRAVITY * 5.0);
    (4%Z, GRAVITY * 10.0) ].

(** [Lander.__init__(self, xdim, ydim)] *)
Definition __init__ (xdim ydim : Z) : t :=
  {| shipx := 250;
     shipy := 150;
     xspeed := 0;
     yspeed := 0;
     thrust := 0;
     thrust_level := 0;
     degree := 0;
     degree_change := 0;
     fuel := FUEL;
     thrust_fuel_burn := 0;
     spin_fuel_burn := 0;
     xdim := xdim;
     ydim := ydim;
     pause := false;
     speed := None |}.

Section UpdateTelemetry.

Context {math : MathLib}.

(** Lines 210-213: the thrust magnitude of the current level, cut to zero
    without fuel.  The lookup raises [KeyError] outside the table. *)
Definition select_thrust (self : t) : outcome t :=
  match dict_get THRUST_MAP (thrust_level self) with
  | None => Raise KeyError
  | Some v =>
      let self := set_thrust v self in
      let self := if fuel self <=? 0 then set_thrust 0 self else self in
      Return self
  end.

(** Lines 220-224: turn by the angular rate, wrap once in each direction. *)
Definition turn (self : t) : t :=
  let self := set_degree (degree self + degree_change self) self in
  let self := if degree self >? 360 then set_degree (degree self - 360) self else self in
  let self := if degree self <? 0 then set_degree (degree self + 360) self else self in
  self.

(** Lines 228-234: direction of thrust, both factors cut to 3 decimals. *)
Definition thrust_multipliers (self : t) : Q * Q :=
  let degree_adjust := degree self in
  let degree_adjust := degree_adjust + 90 in
  let degree_adjust :=
    if degree_adjust >=? 360 then degree_adjust - 360 else degree_adjust in
  let radians := format_3f (math_radians degree_adjust) in
  let x_thrust_multiplier := format_3f (math_cos radians) in
  let y_thrust_multiplier := format_3f (math_sin (- radians)) in
  (x_thrust_multiplier, y_thrust_multiplier).

(** Lines 237-241: thrust, then gravity. *)
Definition accelerate (self : t) : t :=
  let '(x_thrust_multiplier, y_thrust_multiplier) := thrust_multipliers self in
  let self := set_xspeed (xspeed self + thrust self * x_thrust_multiplier) self in
  let self := set_yspeed (yspeed self + thrust self * y_thrust_multiplier) self in
  let self := set_yspeed (yspeed self + GRAVITY) self in
  self.

(** Lines 244-247: past the bottom edge and still going down. *)
Definition bounce_bottom (self : t) : t :=
  if (shipy self >? inject_Z (ydim self)) && (yspeed self >? 0) then
    let self := set_yspeed ((yspeed self * 0.7) * -1) self in
    let self := set_xspeed (xspeed self * 0.7) self in
    set_degree_change (degree_change self * 0.5) self
  else self.

(** Lines 248-251: past the top edge and still going up. *)
Definition bounce_top (self : t) : t :=
  if (shipy self <? 0) && (yspeed self <? 0) then
    let self := set_yspeed ((yspeed self * 0.7) * -1) self in
    let self := set_xspeed (xspeed self * 0.7) self in
    set_degree_change (degree_change self * 0.5) self
  else self.

(** Lines 252-255: past the right edge and still going right. *)
Definition bounce_right (self : t) : t :=
  if (shipx self >? inject_Z (xdim self)) && (xspeed self >? 0) then
    let self := set_xspeed ((xspeed self * 0.7) * -1) self in
    let self := set_yspeed (yspeed self * 0.7) self in
    set_degree_change (degree_change self * 0.5) self
  else self.

(** Lines 256-259: past the left edge and still going left. *)
Definition bounce_left (self : t) : t :=
  if (shipx self <? 0) && (xspeed self <? 0) then
    let self := set_xspeed ((xspeed self * 0.7) * -1) self in
    let self := set_yspeed (yspeed self * 0.7) self in
    set_degree_change (degree_change self * 0.5) self
  else self.

(** Lines 244-259: the four edges, tested one after the other. *)
Definition bounce (self : t) : t :=
  bounce_left (bounce_right (bounce_top (bounce_bottom self))).

(** Lines 262-271: speed indicator, Euler step, fuel. *)
Definition settle (self : t) : t :=
  let self :=
    set_speed (math_sqrt (xspeed self * xspeed self + yspeed self * yspeed self)) self in
  let self := set_shipx (shipx self + xspeed self) self in
  let self := set_shipy (shipy self + yspeed self) self in
  let self :=
    set_fuel (fuel self - thrust_fuel_burn self - spin_fuel_burn self) self in
  let self := if fuel self <? 0 then set_fuel 0 self else self in
  self.

(** [Lander.update_telemetry(self)] *)
Definition update_telemetry (self : t) : outcome t :=
  match select_thrust self with
  | Return self => Return (settle (bounce (accelerate (turn self))))
  | Raise e => Raise e
  | OutOfFuel => OutOfFuel
  end.

End UpdateTelemetry.

(** [Lander.thrust_up(self)] *)
Definition thrust_up (self : t) : t :=
  let self := set_thrust_fuel_burn (thrust_fuel_burn self + 0.05) self in
  let self := set_thrust_level (thrust_level self + 1) self in
  if (thrust_level self >? 4)%Z then
    let self := set_thrust_level 0 self in
    set_thrust_fuel_burn 0 self
  else self.

(** [Lander.thrust_down(self)] *)
Definition thrust_down (self : t) : t :=
  let self := set_thrust_level (thrust_level self - 1) self in
  let self := set_thrust_fuel_burn (thrust_fuel_burn self - 0.05) self in
  if (thrust_level self <? 0)%Z then
    let self := set_thrust_level 0 self in
    set_thrust_fuel_burn 0 self
  else self.

(** [Lander.spin_left(self)] *)
Definition spin_left (self : t) : t :=
  if fuel self >? 0 then
    let self := set_degree_change 5 self in
    set_spin_fuel_burn 0.001 self
  else self.

(** [Lander.spin_right(self)] *)
Definition spin_right (self : t) : t :=
  if fuel self >? 0 then
    let self := set_degree_change (-5) self in
    set_spin_fuel_burn 0.001 self
  else self.

(** [Lander.spin_stop(self)] *)
Definition spin_stop (self : t) : t :=
  if fuel self >? 0 then
    let self := set_degree_change 0 self in
    set_spin_fuel_burn 0 self
  else self.

End Lander.

(** ** The random source *)

(** The entropy tape: cell [k] feeds the [k]-th call of [random.randint]. *)
Definition tape : Type := nat -> Z.

(** Computations that draw random numbers and may raise; the state is the
    position on the tape. *)
Definition Rand (A : Type) : Type := nat -> outcome (A * nat).

Definition ret {A : Type} (a : A) : Rand A := fun pos => Return (a, pos).

Definition raise {A : Type} (e : exn) : Rand A := fun _ => Raise e.

Definition bind {A B : Type} (c : Rand A) (k : A -> Rand B) : Rand B :=
  fun pos =>
    match c pos with
    | Return (a, pos') => k a pos'
    | Raise e => Raise e
    | OutOfFuel => OutOfFuel
    end.

Notation "x <- c ;; k" := (bind c (fun x => k))
  (at level 61, c at next level, right associativity) : py_scope.
Notation "' p <- c ;; k" := (bind c (fun x => let 'p := x in k))
  (at level 61, p pattern, c at next level, right associativity) : py_scope.

(** [random.randint(a, b)]: an integer of [a..b], [ValueError] on an empty
    range. *)
Definition randint (entropy : tape) (a b : Z) : Rand Z :=
  fun pos =>
    if (b <? a)%Z then Raise ValueError
    else Return ((a + entropy pos mod (b - a + 1))%Z, S pos).

(** [sys.maxsize] of a 64-bit build. *)
Definition sys_maxsize : Z := 9223372036854775807.

(** [list.sort()] on integers. *)
Fixpoint insert_sorted (x : Z) (l : list Z) : list Z :=
  match l with
  | [] => [x]
  | y :: l' => if (x <=? y)%Z then x :: l else y :: insert_sorted x l'
  end.

Definition list_sort (l : list Z) : list Z := fold_right insert_sorted [] l.

(** [list.pop(0)]: the head and the rest, [IndexError] on the empty list. *)
Definition list_pop0 {A : Type} (l : list A) : outcome (A * list A) :=
  match l with
  | [] => Raise IndexError
  | x :: l' => Return (x, l')
  end.

(** ** class Terrain *)

Module Terrain.

Definition point : Type := (Z * Q)%type.

Record t : Type := mk {
  type : string;
  terrain : option (list point);
  landing_zones : Z;
  xdim : Z;
  ydim : Z
}.

Definition set_terrain (v : list point) (s : t) : t :=
  mk (type s) (Some v) (landing_zones s) (xdim s) (ydim s).

(** [Terrain.__init__(self, where, xdim, ydim, landing_zones=2)].  The body
    is five assignments; no statement of it raises. *)
Definition __init__ (where_ : string) (xdim ydim : Z) (landing_zones : option Z)
  : outcome t :=
  let landing_zones := match landing_zones with Some n => n | None => 2%Z end in
  Return {| type := where_;
            terrain := None;
            landing_zones := landing_zones;
            xdim := xdim;
            ydim := ydim |}.

(** The local variables of [_gen_terrain] that live across the loop (the
    local [lastx] is assigned once and never read). *)
Record locals : Type := mk_locals {
  terrain_points : list point;
  tx : Z;
  ty : Q;
  lasty : Q;
  flat_segments : list Z;
  next_flat_segment : Z
}.

Inductive flow : Type :=
| Continue (l : locals)
| Break (l : locals).

(** Lines 75-78: the two tests on [ty] that open every pass of the loop. *)
Definition bias_correct (self : t) (ty : Q) : Q :=
  let ty := if ty <? inject_Z (ydim self) then ty + 100 else ty in
  let ty := if ty >? inject_Z (ydim self) then ty - 100 else ty in
  ty.

Section Generation.

Variable entropy : tape.

(** Lines 75-92: one pass through the body of [while True]. *)
Definition loop_body (self : t) (l : locals) : Rand flow :=
  let ty := ty l in
  let tx := tx l in
  let ty := bias_correct self ty in
  let terrain_points := terrain_points l ++ [(tx, ty)] in
  dx <- randint entropy 40 100 ;;
  let tx := (tx + dx)%Z in
  dy <- randint entropy (-100) 100 ;;
  let ty := ty + inject_Z dy in
  let '(ty, flat_segments, next_flat_segment) :=
    if (next_flat_segment l <? tx)%Z then
      let ty := lasty l in
      match list_pop0 (flat_segments l) with
      | Return (x, rest) => (ty, rest, x)
      | _ => (ty, flat_segments l, sys_maxsize)      (* except IndexError *)
      end
    else (ty, flat_segments l, next_flat_segment l) in
  if (tx >? xdim self)%Z then
    let tx := xdim self in
    let terrain_points := terrain_points ++ [(tx, ty)] in
    ret (Break (mk_locals terrain_points tx ty (lasty l)
                          flat_segments next_flat_segment))
  else
    let lasty := ty in
    ret (Continue (mk_locals terrain_points tx ty lasty
                             flat_segments next_flat_segment)).

(** [while True]: unrolled at most [n] times. *)
Fixpoint loop (n : nat) (self : t) (l : locals) : Rand locals :=
  match n with
  | O => fun _ => OutOfFuel
  | S n' =>
      r <- loop_body self l ;;
      match r with
      | Continue l' => loop n' self l'
      | Break l' => ret l'
      end
  end.

(** Every pass moves [tx] right by 40 or more and the loop is left once
    [tx] exceeds [xdim]: this many passes are always enough. *)
Definition loop_bound (self : t) : nat := S (Z.to_nat (xdim self / 40)).

(** [Terrain._gen_terrain(self)] *)
Definition _gen_terrain (self : t) : Rand t :=
  let y0 := inject_Z (ydim self) * 0.85 in
  a <- randint entropy 10 (xdim self) ;;
  b <- randint entropy 10 (xdim self) ;;
  let sorted := list_sort [a; b] in
  fun pos =>
    match list_pop0 sorted with
    | Return (next, rest) =>
        (l <- loop (loop_bound self) self
                {| terrain_points := [];
                   tx := 0;
                   ty := y0;
                   lasty := y0;
                   flat_segments := rest;
                   next_flat_segment := next |} ;;
         ret (set_terrain (terrain_points l) self)) pos
    | Raise e => Raise e
    | OutOfFuel => OutOfFuel
    end.

(** [Terrain.get_terrain(self)]: the profile, generated on first use; the
    value returned is the attribute [self.terrain]. *)
Definition get_terrain (self : t) : Rand (option (list point) * t) :=
  match terrain self with
  | None =>
      self <- _gen_terrain self ;;
      ret (terrain self, self)
  | Some _ => ret (terrain self, self)
  end.

End Generation.

End Terrain.

(** ** Flat runs of a profile *)

(** Maximal runs of two or more consecutive points with equal y: a run is
    counted at its second point. *)
Fixpoint flat_runs_from (prev : Q) (in_run : bool) (ys : list Q) : nat :=
  match ys with
  | [] => O
  | y :: ys' =>
      if Qeq_bool prev y
      then ((if in_run then 0 else 1) + flat_runs_from y true ys')%nat
      else flat_runs_from y false ys'
  end.

Definition flat_runs (pts : list Terrain.point) : nat :=
  match map snd pts with
  | [] => O
  | y :: ys => flat_runs_from y false ys
  end.

(** Level segments: pairs of consecutive points with equal y. *)
Fixpoint level_segments_from (prev : Q) (ys : list Q) : nat :=
  match ys with
  | [] => O
  | y :: ys' =>
      ((if Qeq_bool prev y then 1 else 0) + level_segments_from y ys')%nat
  end.

Definition level_segments (pts : list Terrain.point) : nat :=
  match map snd pts with
  | [] => O
  | y :: ys => level_segments_from y ys
  end.

(** The points with every y as a fraction in lowest terms. *)
Definition reduced (pts : list Terrain.point) : list Terrain.point :=
  map (fun p => (fst p, Qred (snd p))) pts.

(** ** The control loop's commands *)

(** The key events of [main] that call a [Lander] method, and the tick. *)
Inductive command : Type :=
| ThrustUp
| ThrustDown
| SpinLeft
| SpinRight
| SpinStop
| Advance.

Section Driver.

Context {math : MathLib}.

Definition exec (c : command) (s : Lander.t) : outcome Lander.t :=
  match c with
  | ThrustUp => Return (Lander.thrust_up s)
  | ThrustDown => Return (Lander.thrust_down s)
  | SpinLeft => Return (Lander.spin_left s)
  | SpinRight => Return (Lander.spin_right s)
  | SpinStop => Return (Lander.spin_stop s)
  | Advance => Lander.update_telemetry s
  end.

Fixpoint run (cs : list command) (s : Lander.t) : outcome Lander.t :=
  match cs with
  | [] => Return s
  | c :: cs' =>
      match exec c s with
      | Return s' => run cs' s'
      | Raise e => Raise e
      | OutOfFuel => OutOfFuel
      end
  end.

End Driver.

(** ** A rational math library

    An executable instance of [MathLib], used to run the model on concrete
    states: Taylor polynomials for the cosine and the sine, Newton's
    iteration for the square root, 355/113 for pi. *)

Fixpoint taylor (n : nat) (k : Z) (term x2 : Q) : Q :=
  match n with
  | O => term
  | S n' =>
      term + taylor n' (k + 2)
               (Qred (- term * x2 / inject_Z ((k + 1) * (k + 2)))) x2
  end.

Fixpoint newton_sqrt (n : nat) (a g : Q) : Q :=
  match n with
  | O => g
  | S n' => newton_sqrt n' a (Qred ((g + a / g) / 2))
  end.

#[export] Instance approx_math : MathLib := {|
  math_radians := fun d => d * (355 # 113) / 180;
  math_cos := fun x => taylor 16 0 1 (x * x);
  math_sin := fun x => taylor 16 1 x (x * x);
  math_sqrt := fun a => newton_sqrt 8 a ((a + 1) / 2)
|}.

(** ** Sample inputs *)

(** Both flat thresholds drawn as 1024; every step 100, every delta -50. *)
Definition tape_far_thresholds : tape :=
  fun k =>
    match k with
    | 0%nat | 1%nat => 1014%Z
    | _ => if Nat.even k then 60%Z else 50%Z
    end.

(** Flat thresholds drawn as 10 and 11; every step 100, every delta -50. *)
Definition tape_near_thresholds : tape :=
  fun k =>
    match k with
    | 0%nat => 0%Z
    | 1%nat => 1%Z
    | _ => if Nat.even k then 60%Z else 50%Z
    end.

(** The terrain object of [main] in window mode, before its first use. *)
Definition moon : Terrain.t :=
  {| Terrain.type := "moon";
     Terrain.terrain := None;
     Terrain.landing_zones := 2;
     Terrain.xdim := XDIM;
     Terrain.ydim := YDIM |}.

(** The lander of [main] in window mode, as constructed. *)
Definition lander0 : Lander.t := Lander.__init__ XDIM YDIM.

(** Heading 0 with an angular rate of 1000 degrees per tick. *)
Definition spinning_fast : Lander.t := Lander.set_degree_change 1000 lander0.

(** Heading 358, turning left at the rate of [spin_left]. *)
Definition heading_358 : Lander.t :=
  Lander.set_degree_change 5 (Lander.set_degree 358 lander0).

(** Heading 355, turning left at the rate of [spin_left]. *)
Definition heading_355 : Lander.t :=
  Lander.set_degree_change 5 (Lander.set_degree 355 lander0).

(** Level 3 selected, tank empty. *)
Definition out_of_fuel : Lander.t :=
  Lander.set_fuel 0 (Lander.set_thrust_level 3 lander0).

(** One unit below the bottom edge, going down at 5, turning left. *)
Definition below_bottom : Lander.t :=
  Lander.set_degree_change 5
    (Lander.set_yspeed 5 (Lander.set_shipy (inject_Z YDIM + 1) lander0)).

(** One unit past the bottom edge and one past the right edge, leaving
    through the corner at (1, 5), turning left. *)
Definition past_corner : Lander.t :=
  Lander.set_degree_change 5
    (Lander.set_xspeed 1
       (Lander.set_yspeed 5
          (Lander.set_shipx (inject_Z XDIM + 1)
             (Lander.set_shipy (inject_Z YDIM + 1) lander0)))).

(** A world too narrow for the flat thresholds. *)
Definition narrow_world : Terrain.t :=
  {| Terrain.type := "moon";
     Terrain.terrain := None;
     Terrain.landing_zones := 2;
     Terrain.xdim := 5;
     Terrain.ydim := YDIM |}.

(** ** Predicates of the specification *)

(** The control settings, the world size and the pause flag agree. *)
Definition same_controls (s s' : Lander.t) : Prop :=
  Lander.thrust_level s' = Lander.thrust_level s /\
  Lander.thrust_fuel_burn s' = Lander.thrust_fuel_burn s /\
  Lander.spin_fuel_burn s' = Lander.spin_fuel_burn s /\
  Lander.xdim s' = Lander.xdim s /\
  Lander.ydim s' = Lander.ydim s /\
  Lander.pause s' = Lander.pause s.

(** What the initial state has and every command and tick keeps. *)
Definition well_formed (s : Lander.t) : Prop :=
  0 <= Lander.fuel s /\ (0 <= Lander.thrust_level s <= 4)%Z.

(** The ship is past the bottom or the top edge and still moving away. *)
Definition leaving_vertically (s : Lander.t) : bool :=
  (Lander.shipy s >? inject_Z (Lander.ydim s)) && (Lander.yspeed s >? 0)
  || (Lander.shipy s <? 0) && (Lander.yspeed s <? 0).

(** The ship is past the right or the left edge and still moving away. *)
Definition leaving_horizontally (s : Lander.t) : bool :=
  (Lander.shipx s >? inject_Z (Lander.xdim s)) && (Lander.xspeed s >? 0)
  || (Lander.shipx s <? 0) && (Lander.xspeed s <? 0).

(** Coasting in the 1024x768 world: the state [n] ticks after the initial
    one when the thrust stays off, the angular rate is [r] and the spin
    burn rate is [b]. *)
Definition coasting (r b : Q) (n : nat) (s : Lander.t) : Prop :=
  let q := inject_Z (Z.of_nat n) in
  Lander.fuel s == 100 - b * q /\
  Lander.xspeed s == 0 /\
  Lander.yspeed s == q * GRAVITY /\
  Lander.shipx s == 250 /\
  Lander.shipy s == 150 + 0.5 * GRAVITY * q * (q + 1) /\
  Lander.degree s == r * q /\
  Lander.degree_change s == r /\
  Lander.thrust_fuel_burn s == 0 /\
  Lander.spin_fuel_burn s == b /\
  Lander.thrust_level s = 0%Z /\
  Lander.xdim s = 1024%Z /\
  Lander.ydim s = 768%Z.

(** What every state reached by commands and ticks satisfies: the tank
    between empty and full, a thrust level of the table, the thrust burn
    rate in step with the level, the spin burn rate between off and on,
    the angular rate within the spin rate, the heading within one turn. *)
Definition steady (s : Lander.t) : Prop :=
  0 <= Lander.fuel s /\ Lander.fuel s <= FUEL /\
  (0 <= Lander.thrust_level s <= 4)%Z /\
  Lander.thrust_fuel_burn s == 0.05 * inject_Z (Lander.thrust_level s) /\
  0 <= Lander.spin_fuel_burn s /\ Lander.spin_fuel_burn s <= 0.001 /\
  -5 <= Lander.degree_change s /\ Lander.degree_change s <= 5 /\
  0 <= Lander.degree s /\ Lander.degree s <= 360.

(** The spin burn rate is off with the ship at rest in rotation, or on. *)
Definition spin_paid (s : Lander.t) : Prop :=
  (Lander.spin_fuel_burn s = 0 /\ Lander.degree_change s == 0)
  \/ Lander.spin_fuel_burn s = 0.001.

(** [max(0, x)] on rationals. *)
Definition Qmax0 (x : Q) : Q := if x <? 0 then 0 else x.

(** Every difference between consecutive entries lies in [lo, hi]. *)
Fixpoint gaps_within (lo hi : Z) (xs : list Z) : bool :=
  match xs with
  | x :: (y :: _) as rest =>
      (lo <=? y - x)%Z && (y - x <=? hi)%Z && gaps_within lo hi rest
  | _ => true
  end.

(** ** The main loop

    One pass of [while True] in [main], lines 380-430, as far as it acts on
    the lander and the terrain: the profile fetched for drawing, the key
    events of the frame, then the tick.  The screen, the font and the clock
    are left out, and with them the [pygame.QUIT] event, which acts on the
    display alone; [OTHER] stands for the events that are neither a key
    press, a key release nor [pygame.QUIT]. *)

Inductive key : Type :=
| K_UP | K_DOWN | K_LEFT | K_RIGHT | K_ESCAPE | K_r | K_l | K_p | K_other.

Inductive event : Type :=
| KEYDOWN (k : key)
| KEYUP (k : key)
| OTHER.

(** [lander.pause = v] *)
Definition set_pause (v : bool) (s : Lander.t) : Lander.t :=
  Lander.mk (Lander.shipx s) (Lander.shipy s) (Lander.xspeed s) (Lander.yspeed s)
    (Lander.thrust s) (Lander.thrust_level s) (Lander.degree s)
    (Lander.degree_change s) (Lander.fuel s) (Lander.thrust_fuel_burn s)
    (Lander.spin_fuel_burn s) (Lander.xdim s) (Lander.ydim s) v (Lander.speed s).

(** Lines 401-426: one event of a running frame; [None] is [sys.exit(0)]. *)
Definition handle_event (e : event) (lander : Lander.t) : option Lander.t :=
  match e with
  | KEYDOWN K_UP => Some (Lander.thrust_up lander)
  | KEYDOWN K_DOWN => Some (Lander.thrust_down lander)
  | KEYDOWN K_LEFT => Some (Lander.spin_left lander)
  | KEYDOWN K_RIGHT => Some (Lander.spin_right lander)
  | KEYDOWN K_ESCAPE => None
  | KEYDOWN K_r => Some (Lander.set_fuel (Lander.fuel lander + 10) lander)
  | KEYDOWN K_l => Some (Lander.set_degree 0 lander)
  | KEYDOWN K_p =>
      Some (if Lander.pause lander then set_pause false lander
            else set_pause true lander)
  | KEYDOWN K_other => Some lander
  | KEYUP K_LEFT => Some (Lander.spin_stop lander)
  | KEYUP K_RIGHT => Some (Lander.spin_stop lander)
  | KEYUP _ => Some lander
  | OTHER => Some lander
  end.

(** Lines 400-428: [for event in pygame.event.get()], running. *)
Fixpoint handle_events (es : list event) (lander : Lander.t) : option Lander.t :=
  match es with
  | [] => Some lander
  | e :: es' =>
      match handle_event e lander with
      | Some lander => handle_events es' lander
      | None => None
      end
  end.

(** Lines 382-386: the same loop while paused; it stops at the first
    press of p and the rest of the queue is dropped. *)
Fixpoint handle_events_paused (es : list event) (lander : Lander.t) : Lander.t :=
  match es with
  | [] => lander
  | KEYDOWN K_p :: _ => set_pause false lander
  | _ :: es' => handle_events_paused es' lander
  end.

(** The two objects [main] creates at lines 375-376. *)
Record game : Type := mk_game {
  lander : Lander.t;
  terrain : Terrain.t
}.

(** Lines 375-376: [Lander(xdim, ydim)] and [Terrain("moon", xdim, ydim)]. *)
Definition new_game (xdim ydim : Z) : outcome game :=
  match Terrain.__init__ "moon" xdim ydim None with
  | Return terrain =>
      Return {| lander := Lander.__init__ xdim ydim; terrain := terrain |}
  | Raise e => Raise e
  | OutOfFuel => OutOfFuel
  end.

Section MainLoop.

Context {math : MathLib}.

Variable entropy : tape.

(** One frame: [None] is the exit of the program.  A paused frame reads the
    queue and goes back to the top of the loop; a running frame calls
    [terrain.get_terrain()] at line 397, handles the events, and calls
    [lander.update_telemetry()] at line 430. *)
Definition frame (es : list event) (g : game) : Rand (option game) :=
  if Lander.pause (lander g) then
    ret (Some {| lander := handle_events_paused es (lander g);
                 terrain := terrain g |})
  else
    '(_, terrain) <- Terrain.get_terrain entropy (terrain g) ;;
    match handle_events es (lander g) with
    | None => ret None
    | Some lander =>
        match Lander.update_telemetry lander with
        | Return lander => ret (Some {| lander := lander; terrain := terrain |})
        | Raise e => raise e
        | OutOfFuel => fun _ => OutOfFuel
        end
    end.

(** The frames of a session, each with the events queued for it. *)
Fixpoint play (frames : list (list event)) (g : game) : Rand (option game) :=
  match frames with
  | [] => ret (Some g)
  | es :: frames' =>
      r <- frame es g ;;
      match r with
      | Some g => play frames' g
      | None => ret None
      end
  end.

End MainLoop.

(** ** The ship and its jets

    [Lander._get_ship_surface], lines 304-342, as the polygons drawn, in
    order: the jets first, then the ship over them. *)

Definition polygon : Type := list (Z * Z).

Definition SHIP_POINTS : polygon :=
  [(10, 45); (30, 45); (40, 65); (30, 65); (35, 75); (30, 65); (10, 65);
   (5, 75); (10, 65); (0, 65)]%Z.
Definition SM_JET_POINTS : polygon := [(15, 65); (20, 75); (25, 65)]%Z.
Definition MED_JET_POINTS : polygon := [(15, 65); (20, 90); (25, 65)]%Z.
Definition BIG_JET_POINTS : polygon := [(15, 65); (20, 110); (25, 65)]%Z.
Definition MAX_JET_POINTS : polygon := [(12, 65); (20, 120); (28, 65)]%Z.
Definition LEFT_JET_POINTS : polygon := [(10, 65); (0, 75); (5, 65)]%Z.
Definition RIGHT_JET_POINTS : polygon := [(30, 65); (40, 75); (35, 65)]%Z.

(** Lines 326-338: the polygons drawn on the jet surface. *)
Definition jets_drawn (self : Lander.t) : list polygon :=
  if Lander.fuel self >? 0 then
    (if (Lander.thrust_level self >? 0)%Z then [SM_JET_POINTS] else [])
      ++ (if (Lander.thrust_level self >? 1)%Z then [MED_JET_POINTS] else [])
      ++ (if (Lander.thrust_level self >? 2)%Z then [BIG_JET_POINTS] else [])
      ++ (if (Lander.thrust_level self >? 3)%Z then [MAX_JET_POINTS] else [])
      ++ (if Lander.degree_change self <? 0 then [LEFT_JET_POINTS] else [])
      ++ (if Lander.degree_change self >? 0 then [RIGHT_JET_POINTS] else [])
  else [].

(** [Lander._get_ship_surface(self)] *)
Definition _get_ship_surface (self : Lander.t) : list polygon :=
  jets_drawn self ++ [SHIP_POINTS].

(** The event is a press of p. *)
Definition pressed_p (e : event) : bool :=
  match e with
  | KEYDOWN K_p => true
  | _ => false
  end.

(** The four main jets, smallest first. *)
Definition main_jets : list polygon :=
  [SM_JET_POINTS; MED_JET_POINTS; BIG_JET_POINTS; MAX_JET_POINTS].

(** What the main loop keeps: a lander with fuel and a level of the table,
    over a terrain wide enough to be generated. *)
Definition playable (g : game) : Prop :=
  well_formed (lander g) /\ (10 <= Terrain.xdim (terrain g))%Z.

(** * Properties *)

(** ** Deciding comparisons *)

Lemma Qle_bool_spec (x y : Q) : BoolSpec (x <= y) (y < x) (Qle_bool x y).
Proof.
  destruct (Qle_bool x y) eqn:E; constructor.
  - now apply Qle_bool_iff.
  - apply Qnot_le_lt. intro H. apply Qle_bool_iff in H. congruence.
Qed.

Lemma Qlt_bool_spec (x y : Q) : BoolSpec (x < y) (y <= x) (x <? y).
Proof.
  unfold Qlt_bool. destruct (Qle_bool_spec y x); constructor; assumption.
Qed.

Lemma inject_Z_nonneg (z : Z) : (0 <= z)%Z -> 0 <= inject_Z z.
Proof. intros H. change 0 with (inject_Z 0). now rewrite <- Zle_Qle. Qed.

(** Reduce field reads of updated records, leaving arithmetic alone. *)
Ltac fields :=
  cbn beta iota zeta delta
    [Lander.set_shipx Lander.set_shipy Lander.set_xspeed Lander.set_yspeed
     Lander.set_thrust Lander.set_thrust_level Lander.set_degree
     Lander.set_degree_change Lander.set_fuel Lander.set_thrust_fuel_burn
     Lander.set_spin_fuel_burn Lander.set_speed
     Lander.shipx Lander.shipy Lander.xspeed Lander.yspeed Lander.thrust
     Lander.thrust_level Lander.degree Lander.degree_change Lander.fuel
     Lander.thrust_fuel_burn Lander.spin_fuel_burn Lander.xdim Lander.ydim
     Lander.pause Lander.speed andb orb] in *.

(** Split on the next comparison the goal tests, keeping its meaning. *)
Ltac no_test x :=
  lazymatch x with
  | context [if _ then _ else _] => fail
  | _ => idtac
  end.

Ltac qcase :=
  unfold Qgt_bool, Qge_bool in *;
  match goal with
  | |- context [Qle_bool ?x ?y] =>
      no_test x; no_test y; destruct (Qle_bool_spec x y)
  | |- context [Qlt_bool ?x ?y] =>
      no_test x; no_test y; destruct (Qlt_bool_spec x y)
  end;
  fields.

(** Split on the next test of the goal, whatever it says. *)
Ltac bcase :=
  match goal with
  | |- context [if ?b then _ else _] =>
      lazymatch b with
      | context [if _ then _ else _] => fail
      | _ => destruct b
      end
  end;
  fields.

Ltac unfold_phases :=
  unfold Lander.settle, Lander.bounce, Lander.bounce_left, Lander.bounce_right,
    Lander.bounce_top, Lander.bounce_bottom, Lander.accelerate,
    Lander.thrust_multipliers, Lander.turn, same_controls.

(** A fact that no test of the phase bears on. *)
Ltac frame := intros; unfold_phases; fields; repeat bcase; repeat split; reflexivity.

Section LanderFacts.

Context {math : MathLib}.

Import Lander.

(** *** The thrust table *)

Lemma THRUST_MAP_defined (k : Z) :
  (0 <= k <= 4)%Z -> exists v, dict_get THRUST_MAP k = Some v /\ 0 <= v.
Proof.
  intros Hk.
  assert (k = 0 \/ k = 1 \/ k = 2 \/ k = 3 \/ k = 4)%Z as Hc by lia.
  destruct Hc as [-> | [-> | [-> | [-> | ->]]]]; cbn;
    eexists; (split; [reflexivity | unfold GRAVITY; lra]).
Qed.

Lemma THRUST_MAP_undefined (k : Z) :
  ~ (0 <= k <= 4)%Z -> dict_get THRUST_MAP k = None.
Proof.
  intros Hk. unfold THRUST_MAP, dict_get.
  repeat match goal with
         | |- context [Z.eqb ?a k] => destruct (Z.eqb_spec a k); [lia |]
         end.
  reflexivity.
Qed.

Lemma select_thrust_returns (s : t) :
  (0 <= thrust_level s <= 4)%Z ->
  exists v, select_thrust s = Return (set_thrust v s) /\ 0 <= v /\
            (fuel s <= 0 -> v = 0).
Proof.
  intros Hk. destruct (THRUST_MAP_defined Hk) as (v & Hv & Hpos).
  unfold select_thrust. rewrite Hv. fields.
  qcase.
  - exists 0. split; [reflexivity | split; [lra | reflexivity]].
  - exists v. split; [reflexivity | split; [assumption | lra]].
Qed.

Lemma update_telemetry_returns (s : t) :
  (0 <= thrust_level s <= 4)%Z ->
  exists v, update_telemetry s
            = Return (settle (bounce (accelerate (turn (set_thrust v s)))))
            /\ 0 <= v /\ (fuel s <= 0 -> v = 0).
Proof.
  intros Hk. destruct (select_thrust_returns s Hk) as (v & Hv & Hpos & Hz).
  exists v. unfold update_telemetry. rewrite Hv. auto.
Qed.

Lemma update_telemetry_raises (s : t) :
  ~ (0 <= thrust_level s <= 4)%Z -> update_telemetry s = Raise KeyError.
Proof.
  intros Hk. unfold update_telemetry, select_thrust.
  now rewrite (THRUST_MAP_undefined Hk).
Qed.

Lemma update_telemetry_level_0 (s : t) :
  thrust_level s = 0%Z ->
  update_telemetry s
  = Return (settle (bounce (accelerate (turn (set_thrust 0 s))))).
Proof.
  intros H. unfold update_telemetry, select_thrust. rewrite H.
  cbn [dict_get THRUST_MAP Z.eqb]. fields. now bcase.
Qed.

(** *** What each phase of the tick leaves alone *)

Lemma turn_frame (s : t) :
  shipx (turn s) = shipx s /\ shipy (turn s) = shipy s /\
  xspeed (turn s) = xspeed s /\ yspeed (turn s) = yspeed s /\
  thrust (turn s) = thrust s /\ degree_change (turn s) = degree_change s /\
  fuel (turn s) = fuel s /\ same_controls s (turn s).
Proof. frame. Qed.

Lemma accelerate_frame (s : t) :
  shipx (accelerate s) = shipx s /\ shipy (accelerate s) = shipy s /\
  thrust (accelerate s) = thrust s /\ degree (accelerate s) = degree s /\
  degree_change (accelerate s) = degree_change s /\
  fuel (accelerate s) = fuel s /\ same_controls s (accelerate s).
Proof. frame. Qed.

Lemma bounce_frame (s : t) :
  shipx (bounce s) = shipx s /\ shipy (bounce s) = shipy s /\
  thrust (bounce s) = thrust s /\ degree (bounce s) = degree s /\
  fuel (bounce s) = fuel s /\ same_controls s (bounce s).
Proof. frame. Qed.

Lemma settle_frame (s : t) :
  xspeed (settle s) = xspeed s /\ yspeed (settle s) = yspeed s /\
  thrust (settle s) = thrust s /\ degree (settle s) = degree s /\
  degree_change (settle s) = degree_change s /\ same_controls s (settle s).
Proof. frame. Qed.

Lemma same_controls_trans (a b c : t) :
  same_controls a b -> same_controls b c -> same_controls a c.
Proof.
  unfold same_controls. intros (?&?&?&?&?&?) (?&?&?&?&?&?).
  repeat split; congruence.
Qed.

Lemma same_controls_tick (s : t) (v : Q) :
  same_controls s (settle (bounce (accelerate (turn (set_thrust v s))))).
Proof.
  eapply same_controls_trans; [| apply settle_frame].
  eapply same_controls_trans; [| apply bounce_frame].
  eapply same_controls_trans; [| apply accelerate_frame].
  eapply same_controls_trans; [| apply turn_frame].
  unfold same_controls. fields. repeat split; reflexivity.
Qed.

(** The thrust level is read by [select_thrust] only: the later phases
    commute with its assignment. *)
Lemma tick_set_thrust_level (k : Z) (v : Q) (s : t) :
  settle (bounce (accelerate (turn (set_thrust v (set_thrust_level k s)))))
  = set_thrust_level k (settle (bounce (accelerate (turn (set_thrust v s))))).
Proof.
  assert (Hturn : forall x, turn (set_thrust_level k x) = set_thrust_level k (turn x))
    by frame.
  assert (Hacc : forall x, accelerate (set_thrust_level k x)
                           = set_thrust_level k (accelerate x)) by frame.
  assert (Hb1 : forall x, bounce_bottom (set_thrust_level k x)
                          = set_thrust_level k (bounce_bottom x)) by frame.
  assert (Hb2 : forall x, bounce_top (set_thrust_level k x)
                          = set_thrust_level k (bounce_top x)) by frame.
  assert (Hb3 : forall x, bounce_right (set_thrust_level k x)
                          = set_thrust_level k (bounce_right x)) by frame.
  assert (Hb4 : forall x, bounce_left (set_thrust_level k x)
                          = set_thrust_level k (bounce_left x)) by frame.
  assert (Hsettle : forall x, settle (set_thrust_level k x)
                              = set_thrust_level k (settle x)) by frame.
  change (set_thrust v (set_thrust_level k s))
    with (set_thrust_level k (set_thrust v s)).
  unfold bounce. now rewrite Hturn, Hacc, Hb1, Hb2, Hb3, Hb4, Hsettle.
Qed.

Lemma level_range_dec (k : Z) : {(0 <= k <= 4)%Z} + {~ (0 <= k <= 4)%Z}.
Proof.
  destruct (Z_le_dec 0 k); [destruct (Z_le_dec k 4) |]; [left | right | right]; lia.
Qed.


(** *** Heading *)

(** The heading after [turn], by the position of the sum of heading and
    angular rate. *)
Lemma degree_turn (s : t) :
  (360 < degree s + degree_change s ->
   degree (turn s) == degree s + degree_change s - 360) /\
  (degree s + degree_change s < 0 ->
   degree (turn s) == degree s + degree_change s + 360) /\
  (0 <= degree s + degree_change s <= 360 ->
   degree (turn s) == degree s + degree_change s).
Proof.
  unfold turn. fields. repeat split; intros; repeat qcase; lra.
Qed.

Lemma degree_tick (s : t) (v : Q) :
  degree (settle (bounce (accelerate (turn (set_thrust v s)))))
  = degree (turn s).
Proof.
  destruct (settle_frame (bounce (accelerate (turn (set_thrust v s)))))
    as (_ & _ & _ & -> & _).
  destruct (bounce_frame (accelerate (turn (set_thrust v s))))
    as (_ & _ & _ & -> & _).
  destruct (accelerate_frame (turn (set_thrust v s))) as (_ & _ & _ & -> & _).
  frame.
Qed.

(** C2, as amended.  When the sum of the prior heading and the angular rate
    lies in [-360, 720], the heading after one [update_telemetry] lies in
    the closed interval [0, 360]: the wrap-around subtracts or adds 360 at
    most once, and 360 itself is a possible result. *)
Theorem heading_in_range_after_tick (s : t) :
  (0 <= thrust_level s <= 4)%Z ->
  -360 <= degree s + degree_change s ->
  degree s + degree_change s <= 720 ->
  exists s', update_telemetry s = Return s' /\
             0 <= degree s' /\ degree s' <= 360.
Proof.
  intros Hk Hlo Hhi.
  destruct (update_telemetry_returns s Hk) as (v & Hv & _).
  eexists. split; [exact Hv |]. rewrite degree_tick.
  destruct (degree_turn s) as (Hgt & Hlt & Hmid).
  set (d := degree s + degree_change s) in *.
  destruct (Qlt_le_dec 360 d) as [H1 | H1].
  - rewrite (Hgt H1). lra.
  - destruct (Qlt_le_dec d 0) as [H2 | H2].
    + rewrite (Hlt H2). lra.
    + rewrite (Hmid (conj H2 H1)). split; assumption.
Qed.

(** *** Thrust without fuel *)

Lemma update_telemetry_no_fuel (s : t) :
  fuel s <= 0 -> (0 <= thrust_level s <= 4)%Z ->
  update_telemetry s
  = Return (settle (bounce (accelerate (turn (set_thrust 0 s))))).
Proof.
  intros Hf Hk. destruct (update_telemetry_returns s Hk) as (v & E & _ & Hz).
  rewrite (Hz Hf) in E. exact E.
Qed.

Lemma thrust_tick (s : t) (v : Q) :
  thrust (settle (bounce (accelerate (turn (set_thrust v s))))) = v.
Proof.
  destruct (settle_frame (bounce (accelerate (turn (set_thrust v s)))))
    as (_ & _ & -> & _).
  destruct (bounce_frame (accelerate (turn (set_thrust v s))))
    as (_ & _ & -> & _).
  destruct (accelerate_frame (turn (set_thrust v s))) as (_ & _ & -> & _).
  destruct (turn_frame (set_thrust v s)) as (_ & _ & _ & _ & -> & _).
  reflexivity.
Qed.

(** C4.  Without fuel the thrust magnitude is forced to zero, whatever the
    thrust level: from a state with [fuel == 0], the tick at any level
    0..4 returns, with [thrust = 0], and ends with the very velocity (and
    so the very change of velocity) of the tick at level 0; the two final
    states differ in [thrust_level] only. *)
Theorem no_fuel_no_thrust (s : t) (k : Z) :
  fuel s == 0 -> (0 <= k <= 4)%Z ->
  exists s0 sk,
    update_telemetry (set_thrust_level 0 s) = Return s0 /\
    update_telemetry (set_thrust_level k s) = Return sk /\
    thrust sk = 0 /\
    xspeed sk = xspeed s0 /\ yspeed sk = yspeed s0 /\
    xspeed sk - xspeed s = xspeed s0 - xspeed s /\
    yspeed sk - yspeed s = yspeed s0 - yspeed s /\
    sk = set_thrust_level k s0.
Proof.
  intros Hfuel Hk.
  assert (Hle : forall j, fuel (set_thrust_level j s) <= 0) by (intros j; fields; lra).
  assert (E : forall j, (0 <= j <= 4)%Z ->
              update_telemetry (set_thrust_level j s)
              = Return (set_thrust_level j
                          (settle (bounce (accelerate (turn (set_thrust 0 s))))))).
  { intros j Hj. rewrite update_telemetry_no_fuel; [| apply Hle | exact Hj].
    now rewrite tick_set_thrust_level. }
  pose proof (thrust_tick s 0) as Hthrust.
  revert E Hthrust.
  generalize (settle (bounce (accelerate (turn (set_thrust 0 s))))).
  intros r E Hthrust.
  exists (set_thrust_level 0 r), (set_thrust_level k r).
  split; [apply E; lia |]. split; [apply E; exact Hk |].
  split; [exact Hthrust |].
  repeat split; reflexivity.
Qed.

(** *** Cycling the thrust level *)

(** One [thrust_up]: the level goes up by one, or wraps to zero from 4 on,
    and the burn rate follows. *)
Lemma thrust_up_step (s : t) :
  ((thrust_level s + 1 <= 4)%Z /\
   thrust_level (thrust_up s) = (thrust_level s + 1)%Z /\
   thrust_fuel_burn (thrust_up s) = thrust_fuel_burn s + 0.05)
  \/
  ((4 < thrust_level s + 1)%Z /\
   thrust_level (thrust_up s) = 0%Z /\
   thrust_fuel_burn (thrust_up s) = 0).
Proof.
  unfold thrust_up. fields.
  destruct (Z.gtb_spec (thrust_level s + 1) 4); fields; [right | left];
    (split; [assumption | split; reflexivity]).
Qed.

Lemma succ_mod_5 (n : nat) :
  (Z.of_nat (S n) mod 5 =
   if Z.of_nat n mod 5 + 1 <=? 4 then Z.of_nat n mod 5 + 1 else 0)%Z.
Proof.
  rewrite Nat2Z.inj_succ. unfold Z.succ.
  pose proof (Z.mod_pos_bound (Z.of_nat n) 5 ltac:(lia)) as Hb.
  pose proof (Z.div_mod (Z.of_nat n) 5 ltac:(lia)) as Hd.
  destruct (Z.leb_spec (Z.of_nat n mod 5 + 1) 4) as [H | H]; symmetry.
  - apply Z.mod_unique with (q := (Z.of_nat n / 5)%Z); lia.
  - apply Z.mod_unique with (q := (Z.of_nat n / 5 + 1)%Z); lia.
Qed.

Lemma thrust_up_level (s : t) (n : nat) :
  thrust_level s = 0%Z ->
  thrust_level (Nat.iter n thrust_up s) = (Z.of_nat n mod 5)%Z.
Proof.
  intros H0. induction n as [| n IH].
  - exact H0.
  - rewrite succ_mod_5, <- IH.
    change (Nat.iter (S n) thrust_up s) with (thrust_up (Nat.iter n thrust_up s)).
    destruct (thrust_up_step (Nat.iter n thrust_up s))
      as [(Hle & -> & _) | (Hgt & -> & _)];
      destruct (Z.leb_spec (thrust_level (Nat.iter n thrust_up s) + 1) 4);
      (reflexivity || lia).
Qed.

(** C5.  Starting from level 0, after [n] calls of [thrust_up] the level
    is [n mod 5]: it runs 0, 1, 2, 3, 4, 0, ... and stays within 0..4.  The
    call made at level 4 sets both the level and the burn rate to zero;
    every other call adds one level and 0.05 to the burn rate. *)
Theorem thrust_up_cycles (s : t) (n : nat) :
  thrust_level s = 0%Z ->
  thrust_level (Nat.iter n thrust_up s) = (Z.of_nat n mod 5)%Z /\
  (0 <= thrust_level (Nat.iter n thrust_up s) <= 4)%Z /\
  (thrust_level (Nat.iter n thrust_up s) = 4%Z ->
     thrust_level (Nat.iter (S n) thrust_up s) = 0%Z /\
     thrust_fuel_burn (Nat.iter (S n) thrust_up s) = 0) /\
  (thrust_level (Nat.iter n thrust_up s) <> 4%Z ->
     thrust_level (Nat.iter (S n) thrust_up s)
       = (thrust_level (Nat.iter n thrust_up s) + 1)%Z /\
     thrust_fuel_burn (Nat.iter (S n) thrust_up s)
       = thrust_fuel_burn (Nat.iter n thrust_up s) + 0.05).
Proof.
  intros H0.
  pose proof (thrust_up_level s n H0) as Hlevel.
  pose proof (Z.mod_pos_bound (Z.of_nat n) 5 ltac:(lia)) as Hb.
  split; [exact Hlevel |]. split; [rewrite Hlevel; lia |].
  change (Nat.iter (S n) thrust_up s) with (thrust_up (Nat.iter n thrust_up s)).
  destruct (thrust_up_step (Nat.iter n thrust_up s))
    as [(Hle & E1 & E2) | (Hgt & E1 & E2)].
  - split; [lia | intros _; split; assumption].
  - split; [intros _; split; assumption | lia].
Qed.

(** *** Reachable states *)

Lemma fuel_settle (s : t) : 0 <= fuel (settle s).
Proof. unfold settle. fields. qcase; lra. Qed.

Lemma well_formed_init (xdim ydim : Z) : well_formed (__init__ xdim ydim).
Proof. unfold well_formed, __init__, FUEL. cbn. split; [lra | lia]. Qed.

Lemma well_formed_thrust_up (s : t) : well_formed s -> well_formed (thrust_up s).
Proof.
  intros [Hf Hk]. unfold well_formed, thrust_up. fields.
  destruct (Z.gtb_spec (thrust_level s + 1) 4); fields; (split; [assumption | lia]).
Qed.

Lemma well_formed_thrust_down (s : t) : well_formed s -> well_formed (thrust_down s).
Proof.
  intros [Hf Hk]. unfold well_formed, thrust_down. fields.
  destruct (Z.ltb_spec (thrust_level s - 1) 0); fields; (split; [assumption | lia]).
Qed.

Lemma well_formed_spin (s : t) :
  well_formed s ->
  well_formed (spin_left s) /\ well_formed (spin_right s) /\ well_formed (spin_stop s).
Proof.
  intros [Hf Hk]. unfold well_formed, spin_left, spin_right, spin_stop.
  split; [| split]; bcase; (split; assumption).
Qed.

Lemma well_formed_tick (s : t) :
  well_formed s -> exists s', update_telemetry s = Return s' /\ well_formed s'.
Proof.
  intros [Hf Hk]. destruct (update_telemetry_returns s Hk) as (v & Hv & _).
  eexists. split; [exact Hv |]. split; [apply fuel_settle |].
  destruct (same_controls_tick s v) as (-> & _). assumption.
Qed.

Lemma well_formed_exec (c : command) (s : t) :
  well_formed s -> exists s', exec c s = Return s' /\ well_formed s'.
Proof.
  intros H. destruct c; cbn [exec];
    try (eexists; split; [reflexivity |]).
  - now apply well_formed_thrust_up.
  - now apply well_formed_thrust_down.
  - now apply well_formed_spin.
  - now apply well_formed_spin.
  - now apply well_formed_spin.
  - now apply well_formed_tick.
Qed.

Lemma well_formed_run (cs : list command) (s : t) :
  well_formed s -> exists s', run cs s = Return s' /\ well_formed s'.
Proof.
  revert s. induction cs as [| c cs IH]; intros s H; cbn [run].
  - now exists s.
  - destruct (well_formed_exec c H) as (s1 & -> & H1). now apply IH.
Qed.

(** C3.  From the initial state of any world, every finite sequence of
    [thrust_up], [thrust_down], [spin_left], [spin_right], [spin_stop] and
    [update_telemetry] runs to the end without raising, and the state it
    reaches has [fuel >= 0]. *)
Theorem fuel_never_negative (xdim ydim : Z) (cs : list command) :
  exists s, run cs (__init__ xdim ydim) = Return s /\ 0 <= fuel s.
Proof.
  destruct (well_formed_run cs (well_formed_init xdim ydim)) as (s & Hs & Hf & _).
  now exists s.
Qed.

(** *** Bouncing off the screen edges *)

Lemma bounce_velocity (s : t) :
  (0 <= xdim s)%Z -> (0 <= ydim s)%Z ->
  yspeed (bounce s)
    == (if leaving_vertically s then -0.7 else 1)
       * (if leaving_horizontally s then 0.7 else 1) * yspeed s /\
  xspeed (bounce s)
    == (if leaving_vertically s then 0.7 else 1)
       * (if leaving_horizontally s then -0.7 else 1) * xspeed s /\
  degree_change (bounce s)
    == (if leaving_vertically s then 0.5 else 1)
       * (if leaving_horizontally s then 0.5 else 1) * degree_change s.
Proof.
  intros Hx Hy. apply inject_Z_nonneg in Hx, Hy.
  unfold bounce, bounce_left, bounce_right, bounce_top, bounce_bottom,
    leaving_vertically, leaving_horizontally.
  fields. repeat qcase; (split; [| split]); lra.
Qed.

(** The state entering [bounce] in a tick with zero thrust: only gravity
    has acted on the velocity. *)
Lemma pre_bounce_no_thrust (s : t) :
  let a := accelerate (turn (set_thrust 0 s)) in
  shipx a = shipx s /\ shipy a = shipy s /\
  xspeed a == xspeed s /\ yspeed a == yspeed s + GRAVITY /\
  degree_change a = degree_change s /\ fuel a = fuel s /\
  same_controls s a.
Proof.
  cbv zeta.
  destruct (turn_frame (set_thrust 0 s)) as (T1 & T2 & T3 & T4 & T5 & T6 & T7 & T8).
  destruct (accelerate_frame (turn (set_thrust 0 s))) as (A1 & A2 & _ & _ & A5 & A6 & A7).
  rewrite A1, A2, A5, A6, T1, T2, T6, T7.
  repeat (split; [reflexivity |]).
  assert (Hv : xspeed (accelerate (turn (set_thrust 0 s))) == xspeed s /\
               yspeed (accelerate (turn (set_thrust 0 s))) == yspeed s + GRAVITY).
  { unfold accelerate, thrust_multipliers. fields. rewrite T3, T4, T5. fields.
    split; lra. }
  destruct Hv as [Hvx Hvy].
  split; [exact Hvx |]. split; [exact Hvy |].
  repeat (split; [reflexivity |]).
  eapply same_controls_trans; [| exact A7]. exact T8.
Qed.

(** The Euler step and the fuel account of [settle]. *)
Lemma settle_effect (s : t) :
  shipx (settle s) = shipx s + xspeed s /\
  shipy (settle s) = shipy s + yspeed s /\
  (0 <= fuel s - thrust_fuel_burn s - spin_fuel_burn s ->
   fuel (settle s) = fuel s - thrust_fuel_burn s - spin_fuel_burn s) /\
  (fuel s - thrust_fuel_burn s - spin_fuel_burn s < 0 -> fuel (settle s) = 0).
Proof.
  unfold settle. fields.
  split; [| split; [| split]]; intros; qcase; first [reflexivity | exfalso; lra].
Qed.

(** The four edge tests in the order of the source: the vertical pair
    first, then the horizontal pair, each acting on what the one before
    left. *)
Lemma bounce_by_edge (s : t) :
  (0 <= xdim s)%Z -> (0 <= ydim s)%Z ->
  yspeed (bounce s)
  = (let v := if leaving_vertically s then (yspeed s * 0.7) * -1 else yspeed s in
     if leaving_horizontally s then v * 0.7 else v) /\
  xspeed (bounce s)
  = (let u := if leaving_vertically s then xspeed s * 0.7 else xspeed s in
     if leaving_horizontally s then (u * 0.7) * -1 else u) /\
  degree_change (bounce s)
  = (let r := if leaving_vertically s then degree_change s * 0.5
              else degree_change s in
     if leaving_horizontally s then r * 0.5 else r).
Proof.
  intros Hx Hy. apply inject_Z_nonneg in Hx, Hy.
  unfold bounce, bounce_left, bounce_right, bounce_top, bounce_bottom,
    leaving_vertically, leaving_horizontally.
  fields. cbv zeta.
  repeat qcase; (split; [| split]); first [reflexivity | exfalso; lra].
Qed.

(** C6, as amended.  In a world of non-negative size a tick at a level of
    the table returns, and its edge tests act on the state [a] that thrust
    and gravity leave (at zero thrust: the old velocity with [GRAVITY]
    added to [yspeed], at the old position): for the bottom or top edge,
    when the ship is past it and still leaving, the tick inverts [yspeed]
    and multiplies it by 0.7, multiplies [xspeed] by 0.7 and the angular
    rate by 0.5; then likewise for the right or left edge with the two
    components exchanged, so that a ship leaving through a corner is damped
    twice.  In particular a ship with zero thrust at [y = ydim + 1] with
    [yspeed = 5] that is not also leaving horizontally ends one tick with
    [yspeed = -((5 + GRAVITY) * 0.7)], negative, smaller in magnitude and
    within 0.035 of -3.5, with its angular rate halved. *)
Theorem bounce_inverts_and_damps (s : t) :
  (0 <= thrust_level s <= 4)%Z -> (0 <= xdim s)%Z -> (0 <= ydim s)%Z ->
  exists s',
    update_telemetry s = Return s' /\
    let a := accelerate (turn (set_thrust (thrust s') s)) in
    (shipx a = shipx s /\ shipy a = shipy s /\
     degree_change a = degree_change s /\
     xdim a = xdim s /\ ydim a = ydim s) /\
    (thrust_level s = 0%Z ->
     xspeed a == xspeed s /\ yspeed a == yspeed s + GRAVITY) /\
    yspeed s'
    = (let v := if leaving_vertically a then (yspeed a * 0.7) * -1 else yspeed a in
       if leaving_horizontally a then v * 0.7 else v) /\
    xspeed s'
    = (let u := if leaving_vertically a then xspeed a * 0.7 else xspeed a in
       if leaving_horizontally a then (u * 0.7) * -1 else u) /\
    degree_change s'
    = (let r := if leaving_vertically a then degree_change s * 0.5
                else degree_change s in
       if leaving_horizontally a then r * 0.5 else r) /\
    (thrust_level s = 0%Z ->
     shipy s == inject_Z (ydim s) + 1 -> yspeed s == 5 ->
     leaving_horizontally s = false ->
     yspeed s' == ((5 + GRAVITY) * 0.7) * -1 /\
     yspeed s' < 0 /\ - yspeed s' < 5 /\
     -3.5 - 0.035 <= yspeed s' /\ yspeed s' <= -3.5 + 0.035 /\
     degree_change s' == degree_change s * 0.5 /\
     xspeed s' == xspeed s * 0.7).
Proof.
  intros Hk Hx Hy.
  destruct (update_telemetry_returns s Hk) as (v & Hv & _).
  eexists. split; [exact Hv |]. rewrite thrust_tick. cbv zeta.
  assert (Hz : thrust_level s = 0%Z -> v = 0).
  { intros H0. rewrite (update_telemetry_level_0 s H0) in Hv.
    injection Hv as Hv. apply (f_equal thrust) in Hv.
    rewrite !thrust_tick in Hv. now symmetry. }
  destruct (turn_frame (set_thrust v s)) as (T1 & T2 & _ & _ & _ & T6 & _ & T8).
  destruct (accelerate_frame (turn (set_thrust v s)))
    as (A1 & A2 & _ & _ & A5 & _ & A7).
  pose proof (same_controls_trans T8 A7) as (_ & _ & _ & C4 & C5 & _).
  assert (P1 : shipx (accelerate (turn (set_thrust v s))) = shipx s)
    by (rewrite A1, T1; reflexivity).
  assert (P2 : shipy (accelerate (turn (set_thrust v s))) = shipy s)
    by (rewrite A2, T2; reflexivity).
  assert (P3 : degree_change (accelerate (turn (set_thrust v s))) = degree_change s)
    by (rewrite A5, T6; reflexivity).
  assert (P4 : xdim (accelerate (turn (set_thrust v s))) = xdim s) by exact C4.
  assert (P5 : ydim (accelerate (turn (set_thrust v s))) = ydim s) by exact C5.
  assert (P6 : thrust_level s = 0%Z ->
               xspeed (accelerate (turn (set_thrust v s))) == xspeed s /\
               yspeed (accelerate (turn (set_thrust v s))) == yspeed s + GRAVITY).
  { intros H0. rewrite (Hz H0).
    destruct (pre_bounce_no_thrust s) as (_ & _ & Q3 & Q4 & _). now split. }
  destruct (settle_frame (bounce (accelerate (turn (set_thrust v s)))))
    as (S1 & S2 & _ & _ & S5 & _).
  rewrite S1, S2, S5.
  destruct (@bounce_by_edge (accelerate (turn (set_thrust v s))))
    as (B1 & B2 & B3); [rewrite P4; exact Hx | rewrite P5; exact Hy |].
  cbv zeta in B1, B2, B3. rewrite P3 in B3.
  revert P1 P2 P3 P4 P5 P6 B1 B2 B3.
  generalize (bounce (accelerate (turn (set_thrust v s)))).
  generalize (accelerate (turn (set_thrust v s))).
  intros a b P1 P2 P3 P4 P5 P6 B1 B2 B3.
  split; [repeat split; assumption |].
  split; [exact P6 |].
  split; [exact B1 |]. split; [exact B2 |]. split; [exact B3 |].
  intros H0 Hpos Hvel Hh.
  destruct (P6 H0) as [Vx Vy]. unfold GRAVITY in *.
  apply inject_Z_nonneg in Hy.
  assert (Lv : leaving_vertically a = true).
  { unfold leaving_vertically. rewrite P2, P5.
    repeat qcase; first [reflexivity | exfalso; lra]. }
  assert (Lh : leaving_horizontally a = false).
  { revert Hh. unfold leaving_horizontally. rewrite P1, P4.
    repeat qcase; intros Hh; first [reflexivity | discriminate Hh | exfalso; lra]. }
  rewrite Lv, Lh in B1, B2, B3. rewrite B1, B2, B3, Vx, Vy, Hvel.
  repeat (split; [lra |]). lra.
Qed.

(** *** Coasting *)

Lemma coasting_init : coasting 0 0 0 (__init__ 1024 768).
Proof.
  unfold coasting, __init__, FUEL, GRAVITY. cbn.
  repeat (split; [lra |]). repeat (split; [reflexivity |]). reflexivity.
Qed.

Lemma coasting_spin_left : coasting 5 0.001 0 (spin_left (__init__ 1024 768)).
Proof.
  unfold coasting, spin_left, __init__, FUEL, GRAVITY. cbn.
  repeat (split; [lra |]). repeat (split; [reflexivity |]). reflexivity.
Qed.

Lemma inject_Z_of_nat_bounds (n m : nat) :
  (n <= m)%nat ->
  0 <= inject_Z (Z.of_nat n) /\ inject_Z (Z.of_nat n) <= inject_Z (Z.of_nat m).
Proof.
  intros H. split.
  - apply inject_Z_nonneg. lia.
  - rewrite <- Zle_Qle. lia.
Qed.

Lemma inject_Z_of_nat_succ (n : nat) :
  inject_Z (Z.of_nat (S n)) == inject_Z (Z.of_nat n) + 1.
Proof. rewrite Nat2Z.inj_succ. unfold Z.succ. now rewrite inject_Z_plus. Qed.

(** For 156 ticks the falling ship stays above the bottom edge. *)
Lemma coasting_height (q : Q) :
  0 <= q -> q <= 156 ->
  0 <= 0.5 * GRAVITY * q * (q + 1) /\
  150 + 0.5 * GRAVITY * q * (q + 1) <= 768.
Proof. unfold GRAVITY. intros H0 H1. split; nra. Qed.

Section Coasting.

(** The angular rate, the spin burn rate and the number of ticks looked
    at: the heading stays within one turn and the tank does not run dry. *)
Variables (r b : Q) (N : nat).
Hypothesis N_small : (N <= 157)%nat.
Hypothesis r_nonneg : 0 <= r.
Hypothesis r_one_turn : r * inject_Z (Z.of_nat N) <= 360.
Hypothesis b_nonneg : 0 <= b.
Hypothesis b_tank : b * inject_Z (Z.of_nat N) <= 100.

Lemma coasting_tick (n : nat) (s : t) :
  (S n <= N)%nat -> coasting r b n s ->
  exists s', update_telemetry s = Return s' /\ coasting r b (S n) s'.
Proof.
  intros Hn (Ffuel & Fvx & Fvy & Fx & Fy & Fdeg & Fdc & Ftb & Fsb & Fk & Fxd & Fyd).
  cbv zeta in *.
  destruct (@inject_Z_of_nat_bounds n 156 ltac:(lia)) as [Hq0 Hq1].
  change (inject_Z (Z.of_nat 156)) with 156 in Hq1.
  destruct (@inject_Z_of_nat_bounds (S n) N Hn) as [_ HqN].
  pose proof (inject_Z_of_nat_succ n) as Hsucc. rewrite Hsucc in HqN.
  destruct (coasting_height Hq0 Hq1) as [Hh0 Hh1].
  set (q := inject_Z (Z.of_nat n)) in *.
  set (m := inject_Z (Z.of_nat N)) in *.
  assert (Hr : 0 <= r * (m - (q + 1))) by (apply Qmult_le_0_compat; lra).
  assert (Hr' : 0 <= r * (q + 1)) by (apply Qmult_le_0_compat; lra).
  assert (Hb : 0 <= b * (m - (q + 1))) by (apply Qmult_le_0_compat; lra).
  rewrite (update_telemetry_level_0 s Fk). eexists. split; [reflexivity |].
  unfold coasting. cbv zeta. rewrite Hsucc. fold q.
  rewrite degree_tick.
  destruct (degree_turn s) as (_ & _ & Hdeg).
  destruct (pre_bounce_no_thrust s) as (A1 & A2 & A3 & A4 & A5 & A6 & A7).
  destruct A7 as (A7 & A8 & A9 & A10 & A11 & _).
  revert A1 A2 A3 A4 A5 A6 A7 A8 A9 A10 A11.
  generalize (accelerate (turn (set_thrust 0 s))).
  intros a A1 A2 A3 A4 A5 A6 A7 A8 A9 A10 A11.
  assert (Hv : leaving_vertically a = false).
  { unfold leaving_vertically. rewrite A2, A11, Fyd.
    change (inject_Z 768) with 768.
    repeat qcase; first [reflexivity | exfalso; lra]. }
  assert (Hh : leaving_horizontally a = false).
  { unfold leaving_horizontally. rewrite A1, A10, Fxd.
    change (inject_Z 1024) with 1024.
    repeat qcase; first [reflexivity | exfalso; lra]. }
  destruct (bounce_velocity a) as (B1 & B2 & B3); [lia | lia |].
  rewrite Hv, Hh in B1, B2, B3.
  destruct (bounce_frame a) as (C1 & C2 & _ & _ & C5 & C6).
  destruct C6 as (C6 & C7 & C8 & C9 & C10 & _).
  revert B1 B2 B3 C1 C2 C5 C6 C7 C8 C9 C10.
  generalize (bounce a). intros c B1 B2 B3 C1 C2 C5 C6 C7 C8 C9 C10.
  destruct (settle_frame c) as (-> & -> & _ & _ & -> & D6).
  destruct D6 as (-> & -> & -> & -> & -> & _).
  destruct (settle_effect c) as (-> & -> & Hfuel & _).
  rewrite Hfuel by (rewrite C5, C7, C8, A6, A8, A9; lra).
  rewrite Hdeg by lra.
  rewrite B1, B2, B3, C1, C2, C5, C6, C7, C8, C9, C10.
  rewrite A1, A2, A3, A4, A5, A6, A7, A8, A9, A10, A11.
  unfold GRAVITY in *.
  repeat (split; [lra |]). repeat (split; [assumption |]). assumption.
Qed.

Lemma coasting_run (k n : nat) (s : t) :
  (n + k <= N)%nat -> coasting r b n s ->
  exists s', run (repeat Advance k) s = Return s' /\ coasting r b (n + k) s'.
Proof.
  revert n s. induction k as [| k IH]; intros n s Hn Hs.
  - exists s. rewrite Nat.add_0_r. now split.
  - cbn [repeat run exec].
    destruct (@coasting_tick n s) as (s1 & -> & H1); [lia | exact Hs |].
    destruct (IH (S n) s1) as (s2 & E2 & H2); [lia | exact H1 |].
    exists s2. split; [exact E2 |]. now rewrite Nat.add_succ_r.
Qed.

End Coasting.

(** C7.  From the initial state of the 1024x768 world, 20 ticks with no
    command return a state with [fuel = 100], [xspeed = 0] and
    [yspeed = 20 * GRAVITY = 1]. *)
Theorem twenty_ticks_of_free_fall :
  exists s, run (repeat Advance 20) (__init__ 1024 768) = Return s /\
            fuel s == 100 /\ xspeed s == 0 /\
            yspeed s == 20 * GRAVITY /\ yspeed s == 1.
Proof.
  destruct (@coasting_run 0 0 20 ltac:(lia) ltac:(lra) ltac:(lra) ltac:(lra)
              ltac:(lra) 20 0 (__init__ 1024 768))
    as (s & Hs & Hf); [lia | apply coasting_init |].
  exists s. split; [exact Hs |].
  unfold coasting in Hf. cbv zeta in Hf.
  change (inject_Z (Z.of_nat (0 + 20))) with 20 in Hf.
  destruct Hf as (Ffuel & Fvx & Fvy & _).
  unfold GRAVITY in *. split; [| split; [| split]]; lra.
Qed.

Lemma run_cons_return (c : command) (cs : list command) (s s1 : t) :
  exec c s = Return s1 -> run (c :: cs) s = run cs s1.
Proof. intros H. cbn [run]. now rewrite H. Qed.

(** The heading leaves [0, 360) on states the game reaches: after
    [spin_left] and 72 ticks from the initial state the heading is exactly
    360, because the wrap-around tests [degree > 360]. *)
Lemma heading_reaches_360 :
  exists s, run (SpinLeft :: repeat Advance 72) (__init__ 1024 768) = Return s /\
            degree s == 360 /\ ~ degree s < 360.
Proof.
  rewrite (@run_cons_return SpinLeft (repeat Advance 72) (__init__ 1024 768)
             (spin_left (__init__ 1024 768)) eq_refl).
  destruct (@coasting_run 5 0.001 72 ltac:(lia) ltac:(lra)
              ltac:(vm_compute; intro H; discriminate H) ltac:(lra)
              ltac:(vm_compute; intro H; discriminate H)
              72 0 (spin_left (__init__ 1024 768)))
    as (s & Hs & Hf); [lia | apply coasting_spin_left |].
  exists s. split; [exact Hs |].
  unfold coasting in Hf. cbv zeta in Hf.
  change (inject_Z (Z.of_nat (0 + 72))) with 72 in Hf.
  destruct Hf as (_ & _ & _ & _ & _ & Fdeg & _).
  split; lra.
Qed.

End LanderFacts.

(** ** Random draws *)

(** A draw from a non-empty range returns, inside the range, and moves one
    cell along the tape. *)
Lemma randint_returns (entropy : tape) (a b : Z) (pos : nat) :
  (a <= b)%Z ->
  exists v, randint entropy a b pos = Return (v, S pos) /\ (a <= v <= b)%Z.
Proof.
  intros H. unfold randint.
  destruct (Z.ltb_spec b a) as [Hlt | _]; [lia |].
  eexists. split; [reflexivity |].
  pose proof (Z.mod_pos_bound (entropy pos) (b - a + 1) ltac:(lia)). lia.
Qed.

(** Every value of the range is the draw of some tape. *)
Lemma randint_covers (a b v : Z) (pos : nat) :
  (a <= v <= b)%Z -> randint (fun _ => (v - a)%Z) a b pos = Return (v, S pos).
Proof.
  intros H. unfold randint.
  destruct (Z.ltb_spec b a) as [Hlt | _]; [lia |].
  rewrite Z.mod_small by lia. do 2 f_equal. lia.
Qed.

Lemma randint_raises (entropy : tape) (a b : Z) (pos : nat) :
  (b < a)%Z -> randint entropy a b pos = Raise ValueError.
Proof.
  intros H. unfold randint. destruct (Z.ltb_spec b a); [reflexivity | lia].
Qed.

(** ** Terrain generation *)

Section TerrainFacts.

Variable entropy : tape.

Import Terrain.


(** One pass returns; it appends the adjusted current point first, and
    when it goes on, [tx] has moved right by 40 or more without passing
    [xdim]. *)
Lemma loop_body_returns (self : t) (l : locals) (pos : nat) :
  exists r, loop_body entropy self l pos = Return (r, S (S pos)) /\
    match r with
    | Continue l' =>
        (tx l + 40 <= tx l')%Z /\ (tx l' <= xdim self)%Z /\
        exists rest, terrain_points l'
                     = terrain_points l ++ (tx l, bias_correct self (ty l)) :: rest
    | Break l' =>
        exists rest, terrain_points l'
                     = terrain_points l ++ (tx l, bias_correct self (ty l)) :: rest
    end.
Proof.
  destruct (@randint_returns entropy 40 100 pos ltac:(lia)) as (dx & Edx & Hdx).
  destruct (@randint_returns entropy (-100) 100 (S pos) ltac:(lia)) as (dy & Edy & Hdy).
  unfold loop_body, bind. rewrite Edx, Edy.
  destruct (if (next_flat_segment l <? tx l + dx)%Z
            then match list_pop0 (flat_segments l) with
                 | Return (x, rest) => (lasty l, rest, x)
                 | _ => (lasty l, flat_segments l, sys_maxsize)
                 end
            else (bias_correct self (ty l) + inject_Z dy, flat_segments l,
                  next_flat_segment l)) as [[y fs] nf].
  destruct (Z.gtb_spec (tx l + dx) (xdim self)) as [Hgt | Hle].
  - eexists. split; [reflexivity |]. cbn [terrain_points].
    exists [(xdim self, y)]. now rewrite <- app_assoc.
  - eexists. split; [reflexivity |]. cbn [terrain_points tx].
    split; [lia |]. split; [lia |]. now exists [].
Qed.

(** With [tx] inside the world and more passes allowed than steps of 40
    fit before [xdim], the loop returns, and the profile it builds extends
    the points so far by the adjusted current point. *)
Lemma loop_returns (self : t) (n : nat) :
  forall (l : locals) (pos : nat),
    (tx l <= xdim self)%Z -> (xdim self - tx l < 40 * Z.of_nat n)%Z ->
    exists l' pos' rest,
      loop entropy n self l pos = Return (l', pos') /\
      terrain_points l'
      = terrain_points l ++ (tx l, bias_correct self (ty l)) :: rest.
Proof.
  induction n as [| n IH]; intros l pos Hin Hfuel; [lia |].
  cbn [loop]. unfold bind.
  destruct (loop_body_returns self l pos) as (r & -> & Hr).
  destruct r as [l1 | l1].
  - destruct Hr as (Hstep & Hin1 & rest1 & E1).
    destruct (IH l1 (S (S pos)) Hin1 ltac:(lia)) as (l' & pos' & rest & E & Hpts).
    exists l', pos'. eexists. split; [exact E |].
    rewrite Hpts, E1, <- app_assoc. reflexivity.
  - destruct Hr as (rest1 & E1).
    exists l1, (S (S pos)), rest1. split; [reflexivity | exact E1].
Qed.

Lemma loop_bound_enough (self : t) :
  (0 <= xdim self)%Z -> (xdim self - 0 < 40 * Z.of_nat (loop_bound self))%Z.
Proof.
  intros H. unfold loop_bound.
  rewrite Nat2Z.inj_succ, Z2Nat.id by (apply Z.div_pos; lia).
  pose proof (Z.div_mod (xdim self) 40 ltac:(lia)).
  pose proof (Z.mod_pos_bound (xdim self) 40 ltac:(lia)). lia.
Qed.

(** In a world at least 10 wide the generator returns; the profile starts
    with the adjusted start point and the object is otherwise unchanged. *)
Lemma _gen_terrain_returns (self : t) (pos : nat) :
  (10 <= xdim self)%Z ->
  exists rest pos',
    _gen_terrain entropy self pos
    = Return (set_terrain
                ((0%Z, bias_correct self (inject_Z (ydim self) * 0.85)) :: rest)
                self, pos').
Proof.
  intros Hx.
  destruct (@randint_returns entropy 10 (xdim self) pos Hx) as (a & Ea & _).
  destruct (@randint_returns entropy 10 (xdim self) (S pos) Hx) as (b & Eb & _).
  unfold _gen_terrain, bind. rewrite Ea, Eb.
  assert (Hs : exists next rest, list_sort [a; b] = next :: rest).
  { unfold list_sort. cbn. destruct (a <=? b)%Z; eauto. }
  destruct Hs as (next & rest & ->). cbn [list_pop0].
  match goal with
  | |- context [loop entropy _ self ?l0 ?p0] =>
      destruct (loop_returns self (loop_bound self) l0 p0)
        as (l' & pos' & pts & -> & Hpts)
  end.
  - cbn [tx]. lia.
  - cbn [tx]. apply loop_bound_enough. lia.
  - cbn [terrain_points tx ty app] in Hpts. rewrite Hpts.
    eexists _, _. reflexivity.
Qed.

Lemma _gen_terrain_raises (self : t) (pos : nat) :
  (xdim self < 10)%Z -> _gen_terrain entropy self pos = Raise ValueError.
Proof.
  intros Hx. unfold _gen_terrain, bind.
  now rewrite (randint_raises entropy pos Hx).
Qed.



End TerrainFacts.

(** ** The claims on concrete inputs *)

(** C2 as stated fails: from heading 0 with an angular rate of 1000 the
    tick returns heading 640, outside [0, 360): one subtraction of 360 is
    all the wrap-around does. *)
Lemma heading_out_of_range :
  exists s' : Lander.t,
    Lander.update_telemetry spinning_fast = Return s' /\
    Lander.degree s' == 640 /\
    ~ (0 <= Lander.degree s' /\ Lander.degree s' < 360).
Proof.
  eexists. split; [vm_compute; reflexivity |].
  split; [vm_compute; reflexivity |].
  intros [_ H]. vm_compute in H. discriminate H.
Qed.

(** The wrap-around tests [degree > 360], not [>=]: from heading 355 the
    tick at the rate of [spin_left] leaves the heading at exactly 360. *)
Example heading_stays_at_360 :
  exists s' : Lander.t,
    Lander.update_telemetry heading_355 = Return s' /\ Lander.degree s' == 360.
Proof. eexists. split; vm_compute; reflexivity. Qed.

Lemma heading_in_range_after_tick_witness :
  exists s' : Lander.t,
    Lander.update_telemetry heading_358 = Return s' /\
    0 <= Lander.degree s' /\ Lander.degree s' <= 360.
Proof.
  apply (heading_in_range_after_tick heading_358).
  - vm_compute. split; intro H; discriminate H.
  - vm_compute. intro H; discriminate H.
  - vm_compute. intro H; discriminate H.
Defined.

Lemma no_fuel_no_thrust_witness :
  exists s0 sk : Lander.t,
    Lander.update_telemetry (Lander.set_thrust_level 0 out_of_fuel) = Return s0 /\
    Lander.update_telemetry (Lander.set_thrust_level 3 out_of_fuel) = Return sk /\
    Lander.thrust sk = 0 /\
    Lander.xspeed sk = Lander.xspeed s0 /\ Lander.yspeed sk = Lander.yspeed s0 /\
    Lander.xspeed sk - Lander.xspeed out_of_fuel
      = Lander.xspeed s0 - Lander.xspeed out_of_fuel /\
    Lander.yspeed sk - Lander.yspeed out_of_fuel
      = Lander.yspeed s0 - Lander.yspeed out_of_fuel /\
    sk = Lander.set_thrust_level 3 s0.
Proof.
  apply (no_fuel_no_thrust out_of_fuel (k := 3)).
  - vm_compute. reflexivity.
  - lia.
Defined.

Lemma thrust_up_cycles_witness :
  Lander.thrust_level (Nat.iter 7 Lander.thrust_up lander0) = (7 mod 5)%Z /\
  (0 <= Lander.thrust_level (Nat.iter 7 Lander.thrust_up lander0) <= 4)%Z /\
  (Lander.thrust_level (Nat.iter 7 Lander.thrust_up lander0) = 4%Z ->
     Lander.thrust_level (Nat.iter 8 Lander.thrust_up lander0) = 0%Z /\
     Lander.thrust_fuel_burn (Nat.iter 8 Lander.thrust_up lander0) = 0) /\
  (Lander.thrust_level (Nat.iter 7 Lander.thrust_up lander0) <> 4%Z ->
     Lander.thrust_level (Nat.iter 8 Lander.thrust_up lander0)
       = (Lander.thrust_level (Nat.iter 7 Lander.thrust_up lander0) + 1)%Z /\
     Lander.thrust_fuel_burn (Nat.iter 8 Lander.thrust_up lander0)
       = Lander.thrust_fuel_burn (Nat.iter 7 Lander.thrust_up lander0) + 0.05).
Proof.
  apply (thrust_up_cycles lander0 7). reflexivity.
Defined.

(** The cycle, run: levels after 0, 1, ..., 10 calls of [thrust_up]. *)
Example thrust_up_eleven_levels :
  map (fun n => Lander.thrust_level (Nat.iter n Lander.thrust_up lander0))
      (seq 0 11)
  = [0; 1; 2; 3; 4; 0; 1; 2; 3; 4; 0]%Z.
Proof. reflexivity. Qed.

(** C6 as stated fails: a ship at [y = ydim + 1] with [yspeed = 5] and zero
    thrust that is also past the right edge and moving right is damped at
    both edges in the same tick; it ends with [yspeed] about -2.47, not
    -3.5, and a quarter of its angular rate, not half. *)
Lemma corner_bounce_damps_twice :
  Lander.thrust_level past_corner = 0%Z /\
  Lander.shipy past_corner == inject_Z (Lander.ydim past_corner) + 1 /\
  Lander.yspeed past_corner == 5 /\
  exists s' : Lander.t,
    Lander.update_telemetry past_corner = Return s' /\
    Lander.yspeed s' == (((5 + GRAVITY) * 0.7) * -1) * 0.7 /\
    -2.5 < Lander.yspeed s' /\
    ~ Lander.yspeed s' <= -3.5 + 0.035 /\
    Lander.degree_change s' == Lander.degree_change past_corner * 0.25 /\
    ~ Lander.degree_change s' == Lander.degree_change past_corner * 0.5.
Proof.
  split; [reflexivity |].
  split; [vm_compute; reflexivity |].
  split; [vm_compute; reflexivity |].
  eexists. split; [vm_compute; reflexivity |].
  split; [vm_compute; reflexivity |].
  split; [vm_compute; reflexivity |].
  split; [intro H; vm_compute in H; apply H; reflexivity |].
  split; [vm_compute; reflexivity |].
  intro H. vm_compute in H. discriminate H.
Qed.

Lemma bounce_inverts_and_damps_witness :
  exists s' : Lander.t,
    Lander.update_telemetry below_bottom = Return s' /\
    Lander.yspeed s' == ((5 + GRAVITY) * 0.7) * -1 /\
    Lander.yspeed s' < 0 /\ - Lander.yspeed s' < 5 /\
    -3.5 - 0.035 <= Lander.yspeed s' /\ Lander.yspeed s' <= -3.5 + 0.035 /\
    Lander.degree_change s' == Lander.degree_change below_bottom * 0.5 /\
    Lander.xspeed s' == Lander.xspeed below_bottom * 0.7.
Proof.
  destruct (bounce_inverts_and_damps below_bottom) as (s' & E & H).
  - cbn. lia.
  - vm_compute. intro H; discriminate H.
  - vm_compute. intro H; discriminate H.
  - cbv zeta in H. destruct H as (_ & _ & _ & _ & _ & H).
    exists s'. split; [exact E |]. apply H.
    + reflexivity.
    + vm_compute. reflexivity.
    + vm_compute. reflexivity.
    + vm_compute. reflexivity.
Defined.

(** C1 fails on the code.  In the 1024x768 world, when both flat
    thresholds are drawn as 1024, the first is only passed in the last pass
    of the loop: the held value [lasty] goes to the closing point, without
    the adjustment the point before it received, and the second threshold
    is never used.  With steps of 100 and deltas of -50 the profile has no
    two consecutive points of equal y at all. *)
Theorem no_flat_run_with_far_thresholds :
  exists (pts : list Terrain.point) (self' : Terrain.t) (pos' : nat),
    Terrain.get_terrain tape_far_thresholds moon 0%nat = Return (Some pts, self', pos') /\
    reduced pts
    = reduced
      [(0%Z, 752.8); (100%Z, 702.8); (200%Z, 752.8); (300%Z, 702.8); (400%Z, 752.8);
       (500%Z, 702.8); (600%Z, 752.8); (700%Z, 702.8); (800%Z, 752.8); (900%Z, 702.8);
       (1000%Z, 752.8); (1024%Z, 652.8)] /\
    flat_runs pts = 0%nat /\
    level_segments pts = 0%nat /\
    (flat_runs pts < 2)%nat.
Proof.
  eexists _, _, _. split; [vm_compute; reflexivity |].
  split; [vm_compute; reflexivity |].
  split; [vm_compute; reflexivity |].
  split; [vm_compute; reflexivity |].
  vm_compute. lia.
Qed.

(** The same defect when the thresholds are close together (10 and 11):
    both are passed in consecutive passes and the two flat segments merge
    into one maximal run of three points. *)
Example one_flat_run_with_near_thresholds :
  exists (pts : list Terrain.point) (self' : Terrain.t) (pos' : nat),
    Terrain.get_terrain tape_near_thresholds moon 0%nat = Return (Some pts, self', pos') /\
    reduced pts
    = reduced
      [(0%Z, 752.8); (100%Z, 752.8); (200%Z, 752.8); (300%Z, 702.8); (400%Z, 752.8);
       (500%Z, 702.8); (600%Z, 752.8); (700%Z, 702.8); (800%Z, 752.8); (900%Z, 702.8);
       (1000%Z, 752.8); (1024%Z, 702.8)] /\
    flat_runs pts = 1%nat /\
    level_segments pts = 2%nat.
Proof.
  eexists _, _, _. split; [vm_compute; reflexivity |].
  split; [vm_compute; reflexivity |].
  split; vm_compute; reflexivity.
Qed.





(** ** More on the flight dynamics *)

Section LanderMore.

Context {math : MathLib}.

Import Lander.

(** The whole tick after the thrust lookup, field by field. *)
Lemma tick_shape (s : t) (v : Q) :
  let s' := settle (bounce (accelerate (turn (set_thrust v s)))) in
  same_controls s s' /\
  degree s' = degree (turn s) /\
  fuel s' = Qmax0 (fuel s - thrust_fuel_burn s - spin_fuel_burn s) /\
  (-5 <= degree_change s -> degree_change s <= 5 ->
   -5 <= degree_change s' /\ degree_change s' <= 5) /\
  speed s' = Some (math_sqrt (xspeed s' * xspeed s' + yspeed s' * yspeed s')) /\
  shipx s' = shipx s + xspeed s' /\
  shipy s' = shipy s + yspeed s'.
Proof.
  cbv zeta.
  split; [apply same_controls_tick |].
  split; [apply degree_tick |].
  destruct (turn_frame (set_thrust v s)) as (T1 & T2 & _ & _ & _ & T6 & T7 & T8).
  destruct (accelerate_frame (turn (set_thrust v s))) as (A1 & A2 & _ & _ & A5 & A6 & A7).
  destruct T8 as (_ & T9 & T10 & _). destruct A7 as (_ & A8 & A9 & _).
  fields.
  revert A1 A2 A5 A6 A8 A9.
  generalize (accelerate (turn (set_thrust v s))).
  intros a A1 A2 A5 A6 A8 A9.
  destruct (bounce_frame a) as (B1 & B2 & _ & _ & B5 & B6).
  destruct B6 as (_ & B7 & B8 & _).
  assert (Hrate : -5 <= degree_change a -> degree_change a <= 5 ->
                  -5 <= degree_change (bounce a) /\ degree_change (bounce a) <= 5).
  { intros H1 H2. unfold bounce, bounce_left, bounce_right, bounce_top, bounce_bottom.
    fields. repeat bcase; split; lra. }
  revert B1 B2 B5 B7 B8 Hrate.
  generalize (bounce a). intros c B1 B2 B5 B7 B8 Hrate.
  assert (S1 : fuel (settle c)
               = Qmax0 (fuel c - thrust_fuel_burn c - spin_fuel_burn c)).
  { unfold settle, Qmax0. fields. bcase; reflexivity. }
  assert (S2 : speed (settle c)
               = Some (math_sqrt (xspeed c * xspeed c + yspeed c * yspeed c))).
  { unfold settle. fields. bcase; reflexivity. }
  destruct (settle_frame c) as (-> & -> & _ & _ & -> & _).
  destruct (settle_effect c) as (-> & -> & _).
  rewrite S1, S2, B1, B2, B5, B7, B8, A1, A2, A6, A8, A9, T1, T2, T7, T9, T10.
  split; [reflexivity |].
  split; [intros H1 H2; apply Hrate; rewrite A5, T6; assumption |].
  split; [reflexivity |]. split; reflexivity.
Qed.

Lemma Qmax0_cases (x : Q) :
  (0 <= x -> Qmax0 x = x) /\ (x < 0 -> Qmax0 x = 0) /\ 0 <= Qmax0 x.
Proof.
  unfold Qmax0. destruct (Qlt_bool_spec x 0);
    (split; [| split]); intros; first [reflexivity | lra].
Qed.

(** *** States reached by commands and ticks *)

Lemma steady_init (xdim ydim : Z) : steady (__init__ xdim ydim).
Proof.
  unfold steady, __init__, FUEL. cbn. change (inject_Z 0) with 0.
  repeat (split; [first [lra | lia] |]). lra.
Qed.

Lemma steady_thrust_up (s : t) : steady s -> steady (thrust_up s).
Proof.
  unfold steady. intros (H1 & H2 & H3 & H4 & H5 & H6 & H7 & H8 & H9 & H10).
  unfold thrust_up. fields.
  destruct (Z.gtb_spec (thrust_level s + 1) 4); fields.
  - change (inject_Z 0) with 0.
    repeat (split; [first [assumption | lia | lra] |]). assumption.
  - rewrite inject_Z_plus. change (inject_Z 1) with 1.
    repeat (split; [first [assumption | lia | lra] |]). assumption.
Qed.

Lemma steady_thrust_down (s : t) : steady s -> steady (thrust_down s).
Proof.
  unfold steady. intros (H1 & H2 & H3 & H4 & H5 & H6 & H7 & H8 & H9 & H10).
  unfold thrust_down. fields.
  destruct (Z.ltb_spec (thrust_level s - 1) 0); fields.
  - change (inject_Z 0) with 0.
    repeat (split; [first [assumption | lia | lra] |]). assumption.
  - unfold Z.sub. rewrite inject_Z_plus. change (inject_Z (- (1))) with (-1).
    repeat (split; [first [assumption | lia | lra] |]). assumption.
Qed.

Lemma steady_spin (s : t) :
  steady s -> steady (spin_left s) /\ steady (spin_right s) /\ steady (spin_stop s).
Proof.
  unfold steady. intros (H1 & H2 & H3 & H4 & H5 & H6 & H7 & H8 & H9 & H10).
  unfold spin_left, spin_right, spin_stop.
  split; [| split]; bcase;
    repeat (split; [first [assumption | lra] |]); first [assumption | lra].
Qed.

Lemma steady_tick (s : t) :
  steady s ->
  exists s', update_telemetry s = Return s' /\ steady s' /\ fuel s' <= fuel s.
Proof.
  unfold steady. intros (H1 & H2 & H3 & H4 & H5 & H6 & H7 & H8 & H9 & H10).
  destruct (update_telemetry_returns s H3) as (v & Hv & _).
  eexists. split; [exact Hv |].
  destruct (tick_shape s v) as (Hc & Hd & Hf & Hr & _).
  destruct Hc as (C1 & C2 & C3 & _).
  destruct (Hr H7 H8) as [R1 R2].
  assert (Hq : 0 <= inject_Z (thrust_level s)) by (apply inject_Z_nonneg; lia).
  destruct (Qmax0_cases (fuel s - thrust_fuel_burn s - spin_fuel_burn s))
    as (Q1 & Q2 & Q3).
  assert (Hle : Qmax0 (fuel s - thrust_fuel_burn s - spin_fuel_burn s) <= fuel s).
  { destruct (Qlt_le_dec (fuel s - thrust_fuel_burn s - spin_fuel_burn s) 0) as [L | L].
    - rewrite (Q2 L). assumption.
    - rewrite (Q1 L). lra. }
  destruct (degree_turn s) as (D1 & D2 & D3).
  assert (Hdeg : 0 <= degree (turn s) /\ degree (turn s) <= 360).
  { destruct (Qlt_le_dec 360 (degree s + degree_change s)) as [L | L].
    - rewrite (D1 L). lra.
    - destruct (Qlt_le_dec (degree s + degree_change s) 0) as [L' | L'].
      + rewrite (D2 L'). lra.
      + rewrite (D3 (conj L' L)). lra. }
  rewrite Hf, Hd, C1, C2, C3.
  split; [| exact Hle].
  repeat (split; [first [assumption | lra | apply Hdeg] |]). apply Hdeg.
Qed.

Lemma steady_exec (c : command) (s : t) :
  steady s -> exists s', exec c s = Return s' /\ steady s' /\ fuel s' <= fuel s.
Proof.
  intros H. destruct c; cbn [exec];
    try (eexists; split; [reflexivity |]).
  - split; [now apply steady_thrust_up | unfold thrust_up; fields; bcase; lra].
  - split; [now apply steady_thrust_down | unfold thrust_down; fields; bcase; lra].
  - split; [now apply steady_spin | unfold spin_left; bcase; lra].
  - split; [now apply steady_spin | unfold spin_right; bcase; lra].
  - split; [now apply steady_spin | unfold spin_stop; bcase; lra].
  - now apply steady_tick.
Qed.

Lemma steady_run (cs : list command) (s : t) :
  steady s -> exists s', run cs s = Return s' /\ steady s' /\ fuel s' <= fuel s.
Proof.
  revert s. induction cs as [| c cs IH]; intros s H; cbn [run].
  - exists s. split; [reflexivity |]. split; [assumption | lra].
  - destruct (steady_exec c H) as (s1 & -> & H1 & L1).
    destruct (IH s1 H1) as (s2 & E2 & H2 & L2).
    exists s2. split; [exact E2 |]. split; [assumption | lra].
Qed.

(** The spin burn rate is all or nothing, and nothing only at rest. *)
Lemma spin_paid_init (xdim ydim : Z) : spin_paid (__init__ xdim ydim).
Proof. left. split; reflexivity. Qed.

Lemma spin_paid_bounce (s : t) :
  degree_change s == 0 -> degree_change (bounce s) == 0.
Proof.
  intros H. unfold bounce, bounce_left, bounce_right, bounce_top, bounce_bottom.
  fields. repeat bcase; lra.
Qed.

Lemma spin_paid_exec (c : command) (s s' : t) :
  exec c s = Return s' -> spin_paid s -> spin_paid s'.
Proof.
  unfold spin_paid. destruct c; cbn [exec]; intros E H.
  - injection E as <-. unfold thrust_up. fields. bcase; exact H.
  - injection E as <-. unfold thrust_down. fields. bcase; exact H.
  - injection E as <-. unfold spin_left. bcase; [right; reflexivity | exact H].
  - injection E as <-. unfold spin_right. bcase; [right; reflexivity | exact H].
  - injection E as <-. unfold spin_stop.
    bcase; [left; split; reflexivity | exact H].
  - destruct (level_range_dec (thrust_level s)) as [Hk | Hk].
    + destruct (update_telemetry_returns s Hk) as (v & Hv & _).
      rewrite Hv in E. injection E as <-.
      destruct (same_controls_tick s v) as (_ & _ & -> & _).
      destruct H as [[H0 Hr] | H1]; [left | right; exact H1].
      split; [exact H0 |].
      destruct (settle_frame (bounce (accelerate (turn (set_thrust v s)))))
        as (_ & _ & _ & _ & -> & _).
      apply spin_paid_bounce.
      destruct (accelerate_frame (turn (set_thrust v s))) as (_ & _ & _ & _ & -> & _).
      destruct (turn_frame (set_thrust v s)) as (_ & _ & _ & _ & _ & -> & _).
      exact Hr.
    + rewrite (update_telemetry_raises s Hk) in E. discriminate E.
Qed.

(** X1.  The spin burn rate is all or nothing: in every state reached from
    the initial one by commands and ticks it is exactly 0 or exactly
    0.001, and it is 0 only while the angular rate is 0, so a turning ship
    is always charged for its spin. *)
Theorem spin_burn_all_or_nothing (xdim ydim : Z) (cs : list command) :
  exists s, run cs (__init__ xdim ydim) = Return s /\
            ((spin_fuel_burn s = 0 /\ degree_change s == 0)
             \/ spin_fuel_burn s = 0.001).
Proof.
  assert (Hgen : forall s0, well_formed s0 -> spin_paid s0 ->
            exists s, run cs s0 = Return s /\ spin_paid s).
  { induction cs as [| c cs' IH]; intros s0 Hw Hp; cbn [run].
    - now exists s0.
    - destruct (well_formed_exec c Hw) as (s1 & E1 & Hw1).
      rewrite E1. apply IH; [exact Hw1 |].
      exact (spin_paid_exec c E1 Hp). }
  exact (Hgen _ (well_formed_init xdim ydim) (spin_paid_init xdim ydim)).
Qed.

(** X2.  In every state reached from the initial one by commands and ticks
    the heading lies in [0, 360] (360 included) and the angular rate in
    [-5, 5]. *)
Theorem heading_and_rate_bounded (xdim ydim : Z) (cs : list command) :
  exists s, run cs (__init__ xdim ydim) = Return s /\
            0 <= degree s /\ degree s <= 360 /\
            -5 <= degree_change s /\ degree_change s <= 5.
Proof.
  destruct (steady_run cs (steady_init xdim ydim)) as (s & Hs & H & _).
  exists s. split; [exact Hs |].
  destruct H as (_ & _ & _ & _ & _ & _ & H7 & H8 & H9 & H10). now repeat split.
Qed.

(** X3.  No command and no tick adds fuel: along every run from the initial
    state the fuel never exceeds the initial 100, and one more command or
    tick does not raise it. *)
Theorem fuel_never_increases (xdim ydim : Z) (cs : list command) (c : command) :
  exists s s', run cs (__init__ xdim ydim) = Return s /\
               exec c s = Return s' /\
               fuel s' <= fuel s /\ fuel s <= FUEL.
Proof.
  destruct (steady_run cs (steady_init xdim ydim)) as (s & Hs & H & _).
  destruct (steady_exec c H) as (s' & Hs' & _ & L).
  exists s, s'. split; [exact Hs |]. split; [exact Hs' |]. split; [exact L |].
  now destruct H as (_ & H2 & _).
Qed.

(** *** The fuel account of a tick *)

Lemma tick_fuel (s : t) :
  (0 <= thrust_level s <= 4)%Z ->
  exists s', update_telemetry s = Return s' /\ same_controls s s' /\
             fuel s' = Qmax0 (fuel s - thrust_fuel_burn s - spin_fuel_burn s).
Proof.
  intros Hk. destruct (update_telemetry_returns s Hk) as (v & Hv & _).
  eexists. split; [exact Hv |].
  destruct (tick_shape s v) as (Hc & _ & Hf & _). now split.
Qed.

(** *** An empty tank *)

Lemma exec_without_fuel (c : command) (s s1 : t) :
  fuel s <= 0 -> exec c s = Return s1 ->
  spin_fuel_burn s1 = spin_fuel_burn s.
Proof.
  intros Hf. destruct c; cbn [exec]; intros E.
  - injection E as <-. unfold thrust_up. fields. bcase; reflexivity.
  - injection E as <-. unfold thrust_down. fields. bcase; reflexivity.
  - injection E as <-. unfold spin_left. qcase; [exfalso; lra | reflexivity].
  - injection E as <-. unfold spin_right. qcase; [exfalso; lra | reflexivity].
  - injection E as <-. unfold spin_stop. qcase; [exfalso; lra | reflexivity].
  - destruct (level_range_dec (thrust_level s)) as [Hk | Hk].
    + destruct (update_telemetry_returns s Hk) as (v & Hv & _).
      rewrite Hv in E. injection E as <-.
      now destruct (same_controls_tick s v) as (_ & _ & -> & _).
    + rewrite (update_telemetry_raises s Hk) in E. discriminate E.
Qed.

(** X6.  An empty tank stays empty and freezes the spin controls: from a
    steady state with no fuel, whatever commands and ticks follow, the
    fuel is still zero and the spin burn rate is the one it was, so that
    [spin_stop] can no longer switch it off. *)
Theorem empty_tank_stays_empty (cs : list command) (s : t) :
  steady s -> fuel s == 0 ->
  exists s', run cs s = Return s' /\
             fuel s' == 0 /\ spin_fuel_burn s' = spin_fuel_burn s.
Proof.
  revert s. induction cs as [| c cs IH]; intros s Hs Hf; cbn [run].
  - exists s. now repeat split.
  - destruct (steady_exec c Hs) as (s1 & E1 & H1 & L1).
    assert (Hf1 : fuel s1 == 0) by (destruct H1 as (H1 & _); lra).
    pose proof (@exec_without_fuel c s s1 ltac:(lra) E1) as Hb.
    rewrite E1. destruct (IH s1 H1 Hf1) as (s' & E' & F' & B').
    exists s'. split; [exact E' |]. split; [exact F' |]. now rewrite B'.
Qed.

(** *** Lowering the thrust *)

Lemma thrust_down_step (s : t) :
  ((0 <= thrust_level s - 1)%Z /\
   thrust_level (thrust_down s) = (thrust_level s - 1)%Z /\
   thrust_fuel_burn (thrust_down s) = thrust_fuel_burn s - 0.05)
  \/
  ((thrust_level s - 1 < 0)%Z /\
   thrust_level (thrust_down s) = 0%Z /\
   thrust_fuel_burn (thrust_down s) = 0).
Proof.
  unfold thrust_down. fields.
  destruct (Z.ltb_spec (thrust_level s - 1) 0); fields; [right | left];
    (split; [assumption | split; reflexivity]).
Qed.

(** X7.  [thrust_down] clamps at zero: starting from level 0, any number
    of calls leaves the level at 0 (it never wraps to 4), and after the
    first call the burn rate is 0. *)
Theorem thrust_down_clamps (s : t) (n : nat) :
  thrust_level s = 0%Z ->
  thrust_level (Nat.iter n thrust_down s) = 0%Z /\
  thrust_fuel_burn (Nat.iter (S n) thrust_down s) = 0.
Proof.
  intros H0.
  assert (Hl : forall m, thrust_level (Nat.iter m thrust_down s) = 0%Z).
  { induction m as [| m IH]; [exact H0 |].
    change (Nat.iter (S m) thrust_down s) with (thrust_down (Nat.iter m thrust_down s)).
    destruct (thrust_down_step (Nat.iter m thrust_down s))
      as [(Hge & _) | (_ & -> & _)]; [lia | reflexivity]. }
  split; [apply Hl |].
  change (Nat.iter (S n) thrust_down s) with (thrust_down (Nat.iter n thrust_down s)).
  destruct (thrust_down_step (Nat.iter n thrust_down s))
    as [(Hge & _) | (_ & _ & ->)]; [rewrite Hl in Hge; lia | reflexivity].
Qed.

(** X8.  Below the top level [thrust_down] undoes the step of [thrust_up]:
    from a level 0..3 the pair restores the thrust level.  At level 4 it
    does not: [thrust_up] wraps to zero and [thrust_down] stays there, with
    a zero burn rate. *)
Theorem thrust_down_undoes_thrust_up (s : t) :
  ((0 <= thrust_level s <= 3)%Z ->
   thrust_level (thrust_down (thrust_up s)) = thrust_level s) /\
  (thrust_level s = 4%Z ->
   thrust_level (thrust_down (thrust_up s)) = 0%Z /\
   thrust_fuel_burn (thrust_down (thrust_up s)) = 0).
Proof.
  split; intros Hk.
  - destruct (thrust_up_step s) as [(_ & U1 & U2) | (Hgt & _)]; [| lia].
    destruct (thrust_down_step (thrust_up s)) as [(_ & D1 & D2) | (Hlt & _)].
    + rewrite D1, U1. lia.
    + rewrite U1 in Hlt. lia.
  - destruct (thrust_up_step s) as [(Hle & _) | (_ & U1 & U2)]; [lia |].
    destruct (thrust_down_step (thrust_up s)) as [(Hge & _) | (_ & D1 & D2)].
    + rewrite U1 in Hge. lia.
    + now split.
Qed.

End LanderMore.

(** ** More on the terrain *)

Section TerrainMore.

Variable entropy : tape.

Import Terrain.

(** The adjustment brings anything up to 100 below the bottom edge back
    onto the screen. *)
Lemma bias_correct_bound (self : t) (y : Q) :
  y <= inject_Z (ydim self) + 100 -> bias_correct self y <= inject_Z (ydim self).
Proof. unfold bias_correct. intros H. repeat qcase; lra. Qed.

(** The adjustment keeps anything within 100 of a level of the bottom band
    at or above that level. *)
Lemma bias_correct_floor (self : t) (y L : Q) :
  L <= inject_Z (ydim self) - 100 -> L - 100 <= y -> L <= bias_correct self y.
Proof. unfold bias_correct. intros HL H. repeat qcase; lra. Qed.

(** One pass, in full: the two draws, the value carried on, and the exit. *)
Lemma loop_body_shape (self : t) (l : locals) (pos : nat) :
  exists (dx dy : Z) (y : Q) (fs : list Z) (nf : Z),
    (40 <= dx <= 100)%Z /\ (-100 <= dy <= 100)%Z /\
    (y = bias_correct self (ty l) + inject_Z dy \/ y = lasty l) /\
    loop_body entropy self l pos
    = Return
        (if (tx l + dx >? xdim self)%Z
         then Break (mk_locals
                       ((terrain_points l ++ [(tx l, bias_correct self (ty l))])
                          ++ [(xdim self, y)])
                       (xdim self) y (lasty l) fs nf)
         else Continue (mk_locals
                          (terrain_points l ++ [(tx l, bias_correct self (ty l))])
                          (tx l + dx) y y fs nf),
         S (S pos)).
Proof.
  destruct (@randint_returns entropy 40 100 pos ltac:(lia)) as (dx & Edx & Hdx).
  destruct (@randint_returns entropy (-100) 100 (S pos) ltac:(lia)) as (dy & Edy & Hdy).
  unfold loop_body, bind. rewrite Edx, Edy.
  exists dx, dy.
  destruct (next_flat_segment l <? tx l + dx)%Z.
  - destruct (list_pop0 (flat_segments l)) as [[x rest] | e |];
      eexists _, _, _; (split; [exact Hdx |]); (split; [exact Hdy |]);
      (split; [right; reflexivity |]);
      destruct (tx l + dx >? xdim self)%Z; reflexivity.
  - eexists _, _, _. split; [exact Hdx |]. split; [exact Hdy |].
    split; [left; reflexivity |].
    destruct (tx l + dx >? xdim self)%Z; reflexivity.
Qed.

Lemma gaps_within_cons (lo hi x y : Z) (rest : list Z) :
  gaps_within lo hi (x :: y :: rest) = true <->
  (lo <= y - x <= hi)%Z /\ gaps_within lo hi (y :: rest) = true.
Proof.
  cbn [gaps_within]. rewrite !andb_true_iff, !Z.leb_le. tauto.
Qed.

Lemma gaps_within_weaken (lo lo' hi : Z) (xs : list Z) :
  (lo' <= lo)%Z -> gaps_within lo hi xs = true -> gaps_within lo' hi xs = true.
Proof.
  intros Hlo. induction xs as [| x [| y rest] IH]; try reflexivity.
  rewrite !gaps_within_cons. intros [Hg Hr]. split; [lia | now apply IH].
Qed.

(** The loop, from any pass on: it returns, having appended the adjusted
    current point, then points 40 to 100 apart, then the closing point at
    [xdim]; when the values carried in are at most 100 below the bottom
    edge, all but the closing point are on the screen vertically. *)
Lemma loop_profile (self : t) (n : nat) :
  forall (l : locals) (pos : nat),
    (tx l <= xdim self)%Z -> (xdim self - tx l < 40 * Z.of_nat n)%Z ->
    exists l' pos' rest yl,
      loop entropy n self l pos = Return (l', pos') /\
      terrain_points l'
      = (terrain_points l
           ++ ((tx l, bias_correct self (ty l)) :: rest) ++ [(xdim self, yl)])%list /\
      gaps_within 40 100 (tx l :: map fst rest) = true /\
      gaps_within 0 100 (tx l :: map fst rest ++ [xdim self])%list = true /\
      (40 * Z.of_nat (List.length rest) <= xdim self - tx l)%Z /\
      (ty l <= inject_Z (ydim self) + 100 ->
       lasty l <= inject_Z (ydim self) + 100 ->
       Forall (fun p => snd p <= inject_Z (ydim self)) rest /\
       yl <= inject_Z (ydim self) + 100) /\
      (forall L : Q,
          L <= inject_Z (ydim self) - 100 ->
          L - 100 <= ty l -> L - 100 <= lasty l ->
          Forall (fun p => L <= snd p) rest /\ L - 100 <= yl).
Proof.
  induction n as [| n IH]; intros l pos Hin Hfuel; [lia |].
  cbn [loop]. unfold bind.
  destruct (loop_body_shape self l pos)
    as (dx & dy & y & fs & nf & Hdx & Hdy & Hy & ->).
  assert (Hdyq : inject_Z dy <= 100)
    by (change 100 with (inject_Z 100); rewrite <- Zle_Qle; lia).
  assert (Hdyq' : -100 <= inject_Z dy)
    by (change (-100) with (inject_Z (-100)); rewrite <- Zle_Qle; lia).
  assert (Hyf : forall L : Q,
             L <= inject_Z (ydim self) - 100 ->
             L - 100 <= ty l -> L - 100 <= lasty l -> L - 100 <= y).
  { intros L HL Hty Hlast. pose proof (@bias_correct_floor self (ty l) L HL Hty) as Hb.
    destruct Hy as [-> | ->]; [lra | assumption]. }
  assert (Hyb : ty l <= inject_Z (ydim self) + 100 ->
                lasty l <= inject_Z (ydim self) + 100 ->
                y <= inject_Z (ydim self) + 100).
  { intros Hty Hlast. pose proof (@bias_correct_bound self (ty l) Hty) as Hb.
    destruct Hy as [-> | ->]; [lra | assumption]. }
  destruct (Z.gtb_spec (tx l + dx) (xdim self)) as [Hgt | Hle].
  - eexists _, _, [], y. split; [reflexivity |].
    cbn [terrain_points map app List.length gaps_within].
    split; [now rewrite <- app_assoc |]. split; [reflexivity |].
    split.
    { rewrite !andb_true_iff, !Z.leb_le. repeat split; lia. }
    split; [lia |]. split.
    + intros Hty Hlast. split; [constructor | now apply Hyb].
    + intros L HL Hty Hlast. split; [constructor | now apply Hyf].
  - destruct (IH (mk_locals (terrain_points l ++ [(tx l, bias_correct self (ty l))])
                            (tx l + dx) y y fs nf) (S (S pos)))
      as (l' & pos' & rest & yl & E & Hpts & G1 & G2 & Hlen & Hys & Hfl);
      cbn [tx ty lasty terrain_points] in *; try assumption; try lia.
    exists l', pos', ((tx l + dx, bias_correct self y)%Z :: rest), yl.
    split; [exact E |].
    split; [rewrite Hpts, <- app_assoc; reflexivity |].
    cbn [map fst app List.length].
    split; [apply gaps_within_cons; split; [lia | exact G1] |].
    split; [apply gaps_within_cons; split; [lia | exact G2] |].
    split; [rewrite Nat2Z.inj_succ; lia |].
    split.
    + intros Hty Hlast. pose proof (Hyb Hty Hlast) as Hy'.
      destruct (Hys Hy' Hy') as [F1 F2].
      split; [constructor; [now apply bias_correct_bound | exact F1] | exact F2].
    + intros L HL Hty Hlast. pose proof (Hyf L HL Hty Hlast) as Hy'.
      destruct (Hfl L HL Hy' Hy') as [F1 F2].
      split; [constructor; [now apply bias_correct_floor | exact F1] | exact F2].
Qed.

(** The generator, in full. *)
Lemma _gen_terrain_profile (self : t) (pos : nat) :
  (10 <= xdim self)%Z ->
  exists rest yl pos',
    _gen_terrain entropy self pos
    = Return (set_terrain
                (((0%Z, bias_correct self (inject_Z (ydim self) * 0.85)) :: rest)
                   ++ [(xdim self, yl)])
                self, pos') /\
    gaps_within 40 100 (0%Z :: map fst rest) = true /\
    gaps_within 0 100 (0%Z :: map fst rest ++ [xdim self])%list = true /\
    (40 * Z.of_nat (List.length rest) <= xdim self)%Z /\
    ((0 <= ydim self)%Z ->
     Forall (fun p => snd p <= inject_Z (ydim self)) rest /\
     yl <= inject_Z (ydim self) + 100) /\
    (forall L : Q,
        L <= inject_Z (ydim self) - 100 ->
        L <= inject_Z (ydim self) * 0.85 + 100 ->
        Forall (fun p => L <= snd p) rest /\ L - 100 <= yl).
Proof.
  intros Hx.
  destruct (@randint_returns entropy 10 (xdim self) pos Hx) as (a & Ea & _).
  destruct (@randint_returns entropy 10 (xdim self) (S pos) Hx) as (b & Eb & _).
  unfold _gen_terrain, bind. rewrite Ea, Eb.
  assert (Hs : exists next others, list_sort [a; b] = next :: others).
  { unfold list_sort. cbn. destruct (a <=? b)%Z; eauto. }
  destruct Hs as (next & others & ->). cbn [list_pop0].
  match goal with
  | |- context [loop entropy _ self ?l0 ?p0] =>
      destruct (@loop_profile self (loop_bound self) l0 p0)
        as (l' & pos' & rest & yl & -> & Hpts & G1 & G2 & Hlen & Hys & Hfl)
  end.
  - cbn [tx]. lia.
  - cbn [tx]. apply loop_bound_enough. lia.
  - cbn [terrain_points tx ty lasty app] in *. rewrite Hpts.
    exists rest, yl. eexists. split; [reflexivity |].
    split; [exact G1 |]. split; [exact G2 |]. split; [lia |]. split.
    + intros Hy. apply inject_Z_nonneg in Hy. apply Hys; lra.
    + intros L HL H0. apply Hfl; [exact HL | lra | lra].
Qed.

(** X10.  The profile is generated once: the first [get_terrain] of an
    object at least 10 wide returns a profile and stores it, and every later
    call returns that same profile, draws no random number, whatever the
    tape, and leaves the object as it is. *)
Theorem get_terrain_is_cached (self : t) (pos : nat) :
  terrain self = None -> (10 <= xdim self)%Z ->
  exists pts self1 pos1,
    get_terrain entropy self pos = Return (Some pts, self1, pos1) /\
    self1 = set_terrain pts self /\
    forall (entropy' : tape) (pos2 : nat),
      get_terrain entropy' self1 pos2 = Return (Some pts, self1, pos2).
Proof.
  intros Hnone Hx.
  destruct (_gen_terrain_returns entropy self pos Hx) as (rest & pos' & E).
  unfold get_terrain at 1. unfold bind. rewrite Hnone, E.
  eexists _, _, _. split; [reflexivity |]. split; [reflexivity |].
  intros entropy' pos2. reflexivity.
Qed.

(** X11.  In a world at least 10 wide the profile runs from x = 0 to
    x = xdim: consecutive points are 40 to 100 apart, except the closing
    point, which is 0 to 100 right of the one before it; so the profile has
    at least two points and at most [xdim / 40 + 2]. *)
Theorem profile_abscissas (self : t) (pos : nat) :
  terrain self = None -> (10 <= xdim self)%Z ->
  exists pts self' pos',
    get_terrain entropy self pos = Return (Some pts, self', pos') /\
    hd_error (map fst pts) = Some 0%Z /\
    last (map fst pts) 0%Z = xdim self /\
    gaps_within 40 100 (removelast (map fst pts)) = true /\
    gaps_within 0 100 (map fst pts) = true /\
    (2 <= List.length pts)%nat /\
    (Z.of_nat (List.length pts) <= xdim self / 40 + 2)%Z.
Proof.
  intros Hnone Hx.
  destruct (_gen_terrain_profile self pos Hx)
    as (rest & yl & pos' & E & G1 & G2 & Hlen & _).
  unfold get_terrain, bind. rewrite Hnone, E.
  eexists _, _, _. split; [reflexivity |].
  rewrite map_app. cbn [map fst].
  change (0%Z :: map fst rest ++ [xdim self])%list
    with ((0%Z :: map fst rest) ++ [xdim self])%list in *.
  split; [reflexivity |].
  split; [apply last_last |].
  split; [rewrite removelast_last; exact G1 |].
  split; [exact G2 |].
  rewrite length_app. cbn [List.length].
  split; [lia |].
  assert (Z.of_nat (List.length rest) <= xdim self / 40)%Z
    by (apply Z.div_le_lower_bound; lia).
  lia.
Qed.

(** X12.  In a world at least 10 wide and of non-negative height every
    point of the profile but the closing one has y at most [ydim], and the
    closing point at most [ydim + 100]. *)
Theorem profile_ordinates (self : t) (pos : nat) :
  terrain self = None -> (10 <= xdim self)%Z -> (0 <= ydim self)%Z ->
  exists pts self' pos',
    get_terrain entropy self pos = Return (Some pts, self', pos') /\
    Forall (fun p => snd p <= inject_Z (ydim self)) (removelast pts) /\
    snd (last pts (0%Z, 0)) <= inject_Z (ydim self) + 100.
Proof.
  intros Hnone Hx Hy.
  destruct (_gen_terrain_profile self pos Hx)
    as (rest & yl & pos' & E & _ & _ & _ & Hys & _).
  destruct (Hys Hy) as [F1 F2].
  unfold get_terrain, bind. rewrite Hnone, E.
  eexists _, _, _. split; [reflexivity |].
  cbn [terrain set_terrain].
  rewrite removelast_last, last_last. cbn [snd].
  split; [| exact F2].
  constructor; [| exact F1]. cbn [snd].
  apply bias_correct_bound. apply inject_Z_nonneg in Hy. lra.
Qed.


(** The profile is a function of the two dimensions and the random draws
    alone. *)
Lemma loop_body_same_world (self self' : t) (l : locals) (pos : nat) :
  xdim self' = xdim self -> ydim self' = ydim self ->
  loop_body entropy self' l pos = loop_body entropy self l pos.
Proof.
  intros Hx Hy. unfold loop_body, bias_correct. now rewrite Hx, Hy.
Qed.

Lemma loop_same_world (self self' : t) (n : nat) (l : locals) (pos : nat) :
  xdim self' = xdim self -> ydim self' = ydim self ->
  loop entropy n self' l pos = loop entropy n self l pos.
Proof.
  intros Hx Hy. revert l pos. induction n as [| n IH]; intros l pos; [reflexivity |].
  cbn [loop]. unfold bind. rewrite (loop_body_same_world self self' l pos Hx Hy).
  destruct (loop_body entropy self l pos) as [[[l1 | l1] pos1] | e |];
    [apply IH | reflexivity | reflexivity | reflexivity].
Qed.

(** X14.  The place and the number of landing zones play no part in the
    profile: two terrain objects of the same dimensions, at least 10 wide,
    get the same points from the same random draws, and the generation
    leaves both attributes as they were. *)
Theorem profile_ignores_place_and_zones
    (where_ where_' : string) (zones zones' xdim ydim : Z) (pos : nat) :
  (10 <= xdim)%Z ->
  exists pts pos',
    get_terrain entropy (mk where_ None zones xdim ydim) pos
    = Return (Some pts, mk where_ (Some pts) zones xdim ydim, pos') /\
    get_terrain entropy (mk where_' None zones' xdim ydim) pos
    = Return (Some pts, mk where_' (Some pts) zones' xdim ydim, pos').
Proof.
  intros Hx.
  destruct (@_gen_terrain_returns entropy (mk where_ None zones xdim ydim) pos Hx)
    as (rest & pos' & E).
  eexists _, pos'. unfold get_terrain, bind. cbn [terrain].
  assert (E' : _gen_terrain entropy (mk where_' None zones' xdim ydim) pos
               = match _gen_terrain entropy (mk where_ None zones xdim ydim) pos with
                 | Return (s, p) =>
                     Return (mk where_' (terrain s) zones' xdim ydim, p)
                 | Raise e => Raise e
                 | OutOfFuel => OutOfFuel
                 end).
  { unfold _gen_terrain, bind. cbn [Terrain.xdim Terrain.ydim].
    destruct (randint entropy 10 xdim pos) as [[a p1] | e |]; try reflexivity.
    destruct (randint entropy 10 xdim p1) as [[b p2] | e |]; try reflexivity.
    destruct (list_pop0 (list_sort [a; b])) as [[next others] | e |];
      try reflexivity.
    unfold loop_bound. cbn [Terrain.xdim].
    rewrite (@loop_same_world (mk where_ None zones xdim ydim)
               (mk where_' None zones' xdim ydim)); [| reflexivity | reflexivity].
    match goal with
    | |- context [loop entropy ?n ?s ?l ?p] =>
        destruct (loop entropy n s l p) as [[l1 q1] | e |]; reflexivity
    end. }
  rewrite E', E. cbn [terrain set_terrain type landing_zones Terrain.xdim Terrain.ydim].
  split; reflexivity.
Qed.

End TerrainMore.

(** ** The main loop *)

Section MainLoopFacts.

Context {math : MathLib}.

Variable entropy : tape.

Import Lander.

Lemma well_formed_handle_event (e : event) (s : t) :
  well_formed s ->
  match handle_event e s with
  | Some s' => well_formed s'
  | None => True
  end.
Proof.
  intros H. pose proof H as [Hf Hk].
  destruct e as [[] | [] |]; cbn [handle_event]; try exact I; try exact H.
  - now apply well_formed_thrust_up.
  - now apply well_formed_thrust_down.
  - now apply well_formed_spin.
  - now apply well_formed_spin.
  - unfold well_formed. fields. split; [lra | exact Hk].
  - destruct (pause s); exact H.
  - now apply well_formed_spin.
  - now apply well_formed_spin.
Qed.

Lemma well_formed_handle_events (es : list event) (s : t) :
  well_formed s ->
  match handle_events es s with
  | Some s' => well_formed s'
  | None => True
  end.
Proof.
  revert s. induction es as [| e es IH]; intros s H; cbn [handle_events].
  - exact H.
  - pose proof (well_formed_handle_event e H) as He.
    destruct (handle_event e s) as [s1 |]; [now apply IH | exact I].
Qed.

Lemma well_formed_handle_events_paused (es : list event) (s : t) :
  well_formed s -> well_formed (handle_events_paused es s).
Proof.
  intros H. induction es as [| [[] | k |] es IH]; cbn [handle_events_paused];
    assumption.
Qed.

Lemma get_terrain_in_wide_world (self : Terrain.t) (pos : nat) :
  (10 <= Terrain.xdim self)%Z ->
  exists pts self' pos',
    Terrain.get_terrain entropy self pos = Return (pts, self', pos') /\
    Terrain.xdim self' = Terrain.xdim self.
Proof.
  intros Hx. unfold Terrain.get_terrain.
  destruct (Terrain.terrain self) as [pts |] eqn:E.
  - eexists _, _, _. split; reflexivity.
  - destruct (_gen_terrain_returns entropy self pos Hx) as (rest & pos' & Eg).
    unfold bind. rewrite Eg. eexists _, _, _. split; reflexivity.
Qed.

Lemma playable_frame (es : list event) (g : game) (pos : nat) :
  playable g ->
  exists r pos', frame entropy es g pos = Return (r, pos') /\
                 match r with Some g' => playable g' | None => True end.
Proof.
  intros [Hw Hx]. unfold frame. destruct (pause (lander g)).
  - eexists _, _. split; [reflexivity |]. split; [| exact Hx].
    now apply well_formed_handle_events_paused.
  - destruct (get_terrain_in_wide_world (terrain g) pos Hx)
      as (pts & self' & pos' & E & Hx').
    unfold bind. rewrite E.
    pose proof (well_formed_handle_events es Hw) as He.
    destruct (handle_events es (lander g)) as [s1 |].
    + destruct (well_formed_tick He) as (s' & -> & H').
      eexists _, _. split; [reflexivity |]. split; [exact H' |].
      cbn [terrain]. rewrite Hx'. exact Hx.
    + eexists _, _. split; [reflexivity | exact I].
Qed.

Lemma playable_play (frames : list (list event)) (g : game) (pos : nat) :
  playable g ->
  exists r pos', play entropy frames g pos = Return (r, pos') /\
                 match r with Some g' => playable g' | None => True end.
Proof.
  revert g pos. induction frames as [| es frames' IH]; intros g pos H; cbn [play].
  - eexists _, _. split; [reflexivity | exact H].
  - destruct (playable_frame es pos H) as (r & pos1 & E & Hr).
    unfold bind. rewrite E. destruct r as [g1 |].
    + now apply IH.
    + eexists _, _. split; [reflexivity | exact I].
Qed.

(** X15.  In a world at least 10 wide the main loop never raises: whatever
    keys are pressed and released in whatever frames (refuelling and
    heading reset included) and whatever the random draws, every frame
    returns or the program exits; [get_terrain] raises no [ValueError],
    [update_telemetry] no [KeyError], and while the program runs the fuel
    is at least 0 and the thrust level in 0..4. *)
Theorem main_loop_never_faults
    (xdim ydim : Z) (frames : list (list event)) (pos : nat) :
  (10 <= xdim)%Z ->
  exists g0 r pos',
    new_game xdim ydim = Return g0 /\
    play entropy frames g0 pos = Return (r, pos') /\
    match r with
    | Some g => 0 <= fuel (lander g) /\ (0 <= thrust_level (lander g) <= 4)%Z
    | None => True
    end.
Proof.
  intros Hx.
  exists (mk_game (__init__ xdim ydim) (Terrain.mk "moon" None 2 xdim ydim)).
  destruct (@playable_play frames
              (mk_game (__init__ xdim ydim) (Terrain.mk "moon" None 2 xdim ydim)) pos)
    as (r & pos' & E & Hr).
  - split; [apply well_formed_init | exact Hx].
  - exists r, pos'. split; [reflexivity |]. split; [exact E |].
    destruct r as [g |]; [exact (proj1 Hr) | exact I].
Qed.

(** X16.  In a world narrower than 10 the first frame raises [ValueError]
    whatever the events queued for it: the profile is fetched before the
    events are read, so not even Escape exits the program. *)
Theorem narrow_world_stops_first_frame
    (xdim ydim : Z) (es : list event) (frames : list (list event)) (pos : nat) :
  (xdim < 10)%Z ->
  exists g0,
    new_game xdim ydim = Return g0 /\
    play entropy (es :: frames) g0 pos = Raise ValueError.
Proof.
  intros Hx. eexists. split; [reflexivity |].
  cbn [play]. unfold bind, frame. cbn [lander terrain pause __init__].
  unfold Terrain.get_terrain. cbn [Terrain.terrain]. unfold bind.
  now rewrite _gen_terrain_raises.
Qed.

(** X17.  A paused frame only listens for p: it returns the lander as it
    was, unpaused if p was pressed among the events of the frame and still
    paused otherwise; no other key acts, Escape does not exit, there is no
    tick, and the terrain is neither generated nor read. *)
Theorem paused_frame_only_unpauses (es : list event) (g : game) (pos : nat) :
  pause (lander g) = true ->
  frame entropy es g pos
  = Return (Some {| lander := if existsb pressed_p es
                              then set_pause false (lander g) else lander g;
                    terrain := terrain g |}, pos).
Proof.
  intros Hp. unfold frame, ret. rewrite Hp. do 4 f_equal.
  induction es as [| [[] | k |] es IH];
    cbn [handle_events_paused existsb pressed_p orb];
    first [reflexivity | exact IH].
Qed.

Lemma handle_events_refuel (n : nat) (s : t) :
  exists s1, handle_events (repeat (KEYDOWN K_r) n) s = Some s1 /\
             fuel s1 == fuel s + 10 * inject_Z (Z.of_nat n) /\
             same_controls s s1.
Proof.
  revert s. induction n as [| n IH]; intros s.
  - exists s. split; [reflexivity |]. change (inject_Z (Z.of_nat 0)) with 0.
    split; [lra |]. unfold same_controls. now repeat split.
  - cbn [repeat handle_events handle_event].
    destruct (IH (set_fuel (fuel s + 10) s)) as (s1 & -> & Hf & Hc).
    exists s1. split; [reflexivity |]. rewrite inject_Z_of_nat_succ. fields.
    split; [lra | exact Hc].
Qed.

(** X18.  Refuelling has no cap: in a world at least 10 wide, [n] presses
    of r in the first frame take the fuel from the initial 100 to
    [100 + 10 n]. *)
Theorem refuel_has_no_cap (xdim ydim : Z) (n : nat) (pos : nat) :
  (10 <= xdim)%Z ->
  exists g0 g pos',
    new_game xdim ydim = Return g0 /\
    play entropy [repeat (KEYDOWN K_r) n] g0 pos = Return (Some g, pos') /\
    fuel (lander g) == FUEL + 10 * inject_Z (Z.of_nat n).
Proof.
  intros Hx.
  exists (mk_game (__init__ xdim ydim) (Terrain.mk "moon" None 2 xdim ydim)).
  cbn [play]. unfold bind at 1. unfold frame.
  cbn [lander terrain pause __init__].
  destruct (get_terrain_in_wide_world (Terrain.mk "moon" None 2 xdim ydim) pos Hx)
    as (pts & self' & pos' & E & _).
  unfold bind.
  destruct (handle_events_refuel n (__init__ xdim ydim)) as (s1 & Hs1 & Hf & Hc).
  destruct Hc as (C1 & C2 & C3 & _).
  destruct (@tick_fuel _ s1) as (s' & Hs' & _ & Hf'); [rewrite C1; cbn; lia |].
  exists {| lander := s'; terrain := self' |}, pos'.
  split; [reflexivity |]. split.
  - rewrite E. cbn [__init__] in Hs1. rewrite Hs1, Hs'. reflexivity.
  - cbn [lander]. rewrite Hf', C2, C3.
    cbn [thrust_fuel_burn spin_fuel_burn __init__].
    destruct (@inject_Z_of_nat_bounds n n (le_n n)) as [Hq _].
    destruct (Qmax0_cases (fuel s1 - 0 - 0)) as (Q1 & _).
    cbn [fuel __init__] in Hf. unfold FUEL in *.
    rewrite Q1 by lra. lra.
Qed.

(** X19.  The jets drawn follow the controls: without fuel the surface
    shows the ship alone; with fuel and a thrust level [k] of 0..4 it shows
    the [k] smallest main jets, then the left jet when the angular rate is
    negative or the right jet when it is positive, then the ship. *)
Theorem jets_follow_the_controls (s : t) :
  (fuel s <= 0 -> _get_ship_surface s = [SHIP_POINTS]) /\
  (0 < fuel s -> (0 <= thrust_level s <= 4)%Z ->
   _get_ship_surface s
   = firstn (Z.to_nat (thrust_level s)) main_jets
       ++ (if degree_change s <? 0 then [LEFT_JET_POINTS]
           else if degree_change s >? 0 then [RIGHT_JET_POINTS] else [])
       ++ [SHIP_POINTS]).
Proof.
  unfold _get_ship_surface, jets_drawn. split.
  - intros Hf. qcase; [exfalso; lra | reflexivity].
  - intros Hf Hk. qcase; [| exfalso; lra].
    assert (Hc : (thrust_level s = 0 \/ thrust_level s = 1 \/ thrust_level s = 2
                  \/ thrust_level s = 3 \/ thrust_level s = 4)%Z) by lia.
    destruct Hc as [-> | [-> | [-> | [-> | ->]]]]; cbn [Z.gtb Z.compare Pos.compare
      Pos.compare_cont Z.to_nat Pos.to_nat Pos.iter_op Nat.add firstn main_jets app];
      repeat qcase; first [reflexivity | exfalso; lra].
Qed.

End MainLoopFacts.

(** ** The properties above, at the inputs of [main] *)

Lemma empty_tank_stays_empty_witness :
  exists s' : Lander.t,
    run [SpinStop; Advance; SpinRight; ThrustUp; Advance]
        (Lander.set_fuel 0 (Lander.spin_left lander0)) = Return s' /\
    Lander.fuel s' == 0 /\ Lander.spin_fuel_burn s' = 0.001.
Proof.
  apply (empty_tank_stays_empty [SpinStop; Advance; SpinRight; ThrustUp; Advance]
           (s := Lander.set_fuel 0 (Lander.spin_left lander0))).
  - unfold steady.
    split; [vm_compute; intro H; discriminate H |].
    split; [vm_compute; intro H; discriminate H |].
    split; [cbn; lia |].
    split; [vm_compute; reflexivity |].
    split; [vm_compute; intro H; discriminate H |].
    split; [vm_compute; intro H; discriminate H |].
    split; [vm_compute; intro H; discriminate H |].
    split; [vm_compute; intro H; discriminate H |].
    split; vm_compute; intro H; discriminate H.
  - vm_compute. reflexivity.
Defined.

Lemma thrust_down_clamps_witness :
  Lander.thrust_level (Nat.iter 3 Lander.thrust_down lander0) = 0%Z /\
  Lander.thrust_fuel_burn (Nat.iter 4 Lander.thrust_down lander0) = 0.
Proof.
  apply (thrust_down_clamps lander0 3). reflexivity.
Defined.

Lemma thrust_down_undoes_thrust_up_witness :
  Lander.thrust_level (Lander.thrust_down (Lander.thrust_up lander0)) = 0%Z /\
  (Lander.thrust_level
     (Lander.thrust_down (Lander.thrust_up (Nat.iter 4 Lander.thrust_up lander0)))
   = 0%Z /\
   Lander.thrust_fuel_burn
     (Lander.thrust_down (Lander.thrust_up (Nat.iter 4 Lander.thrust_up lander0)))
   = 0).
Proof.
  split.
  - apply (proj1 (thrust_down_undoes_thrust_up lander0)). cbn. lia.
  - apply (proj2 (thrust_down_undoes_thrust_up (Nat.iter 4 Lander.thrust_up lander0))).
    reflexivity.
Defined.

Lemma get_terrain_is_cached_witness :
  exists pts self1 pos1,
    Terrain.get_terrain tape_far_thresholds moon 0%nat
    = Return (Some pts, self1, pos1) /\
    self1 = Terrain.set_terrain pts moon /\
    forall (entropy' : tape) (pos2 : nat),
      Terrain.get_terrain entropy' self1 pos2 = Return (Some pts, self1, pos2).
Proof.
  apply (get_terrain_is_cached tape_far_thresholds moon 0%nat).
  - reflexivity.
  - vm_compute. intro H; discriminate H.
Defined.

Lemma profile_abscissas_witness :
  exists pts self' pos',
    Terrain.get_terrain tape_far_thresholds moon 0%nat
    = Return (Some pts, self', pos') /\
    hd_error (map fst pts) = Some 0%Z /\
    last (map fst pts) 0%Z = 1024%Z /\
    gaps_within 40 100 (removelast (map fst pts)) = true /\
    gaps_within 0 100 (map fst pts) = true /\
    (2 <= List.length pts)%nat /\
    (Z.of_nat (List.length pts) <= 1024 / 40 + 2)%Z.
Proof.
  apply (profile_abscissas tape_far_thresholds moon 0%nat).
  - reflexivity.
  - vm_compute. intro H; discriminate H.
Defined.

Lemma profile_ordinates_witness :
  exists pts self' pos',
    Terrain.get_terrain tape_far_thresholds moon 0%nat
    = Return (Some pts, self', pos') /\
    Forall (fun p => snd p <= inject_Z 768) (removelast pts) /\
    snd (last pts (0%Z, 0)) <= inject_Z 768 + 100.
Proof.
  apply (profile_ordinates tape_far_thresholds moon 0%nat).
  - reflexivity.
  - vm_compute. intro H; discriminate H.
  - vm_compute. intro H; discriminate H.
Defined.


Lemma profile_ignores_place_and_zones_witness :
  exists pts pos',
    Terrain.get_terrain tape_near_thresholds (Terrain.mk "moon" None 2 1024 768) 0%nat
    = Return (Some pts, Terrain.mk "moon" (Some pts) 2 1024 768, pos') /\
    Terrain.get_terrain tape_near_thresholds (Terrain.mk "mars" None 7 1024 768) 0%nat
    = Return (Some pts, Terrain.mk "mars" (Some pts) 7 1024 768, pos').
Proof.
  apply (profile_ignores_place_and_zones tape_near_thresholds "moon" "mars" 2 7
           (xdim := 1024) 768 0%nat).
  vm_compute. intro H; discriminate H.
Defined.

Lemma main_loop_never_faults_witness :
  exists g0 r pos',
    new_game 1024 768 = Return g0 /\
    play tape_far_thresholds
      [[KEYDOWN K_UP; KEYDOWN K_LEFT]; [KEYUP K_LEFT; KEYDOWN K_r]; [KEYDOWN K_ESCAPE]]
      g0 0%nat
    = Return (r, pos') /\
    match r with
    | Some g =>
        0 <= Lander.fuel (lander g) /\ (0 <= Lander.thrust_level (lander g) <= 4)%Z
    | None => True
    end.
Proof.
  apply (main_loop_never_faults tape_far_thresholds (xdim := 1024) 768).
  vm_compute. intro H; discriminate H.
Defined.

Lemma narrow_world_stops_first_frame_witness :
  exists g0,
    new_game 5 768 = Return g0 /\
    play tape_far_thresholds [[KEYDOWN K_ESCAPE]] g0 0%nat = Raise ValueError.
Proof.
  apply (narrow_world_stops_first_frame tape_far_thresholds (xdim := 5) 768).
  reflexivity.
Defined.

Lemma paused_frame_only_unpauses_witness :
  frame tape_far_thresholds [KEYDOWN K_ESCAPE; KEYDOWN K_UP]
    {| lander := set_pause true lander0; terrain := moon |} 7%nat
  = Return (Some {| lander := set_pause true lander0; terrain := moon |}, 7%nat)
  /\
  frame tape_far_thresholds [KEYDOWN K_ESCAPE; KEYDOWN K_p; KEYDOWN K_UP]
    {| lander := set_pause true lander0; terrain := moon |} 7%nat
  = Return (Some {| lander := set_pause false (set_pause true lander0);
                    terrain := moon |}, 7%nat).
Proof.
  split.
  - apply (paused_frame_only_unpauses tape_far_thresholds
             [KEYDOWN K_ESCAPE; KEYDOWN K_UP]
             {| lander := set_pause true lander0; terrain := moon |} 7%nat).
    reflexivity.
  - apply (paused_frame_only_unpauses tape_far_thresholds
             [KEYDOWN K_ESCAPE; KEYDOWN K_p; KEYDOWN K_UP]
             {| lander := set_pause true lander0; terrain := moon |} 7%nat).
    reflexivity.
Defined.

Lemma refuel_has_no_cap_witness :
  exists g0 g pos',
    new_game 1024 768 = Return g0 /\
    play tape_far_thresholds [repeat (KEYDOWN K_r) 2] g0 0%nat
    = Return (Some g, pos') /\
    Lander.fuel (lander g) == FUEL + 10 * inject_Z (Z.of_nat 2).
Proof.
  apply (refuel_has_no_cap tape_far_thresholds (xdim := 1024) 768 2 0%nat).
  vm_compute. intro H; discriminate H.
Defined.

Lemma jets_follow_the_controls_witness :
  _get_ship_surface out_of_fuel = [SHIP_POINTS] /\
  _get_ship_surface
    (Lander.spin_left (Lander.thrust_up (Lander.thrust_up lander0)))
  = [SM_JET_POINTS; MED_JET_POINTS; RIGHT_JET_POINTS; SHIP_POINTS].
Proof.
  split.
  - apply (proj1 (jets_follow_the_controls out_of_fuel)).
    vm_compute. intro H; discriminate H.
  - apply (proj2 (jets_follow_the_controls
                    (Lander.spin_left (Lander.thrust_up (Lander.thrust_up lander0))))).
    + vm_compute. reflexivity.
    + cbn. lia.
Defined.

